(** * calico-dcos installer scheduler: the per-agent installation ladder

    A shallow embedding of [framework/calico_framework.py]: the [Agent]
    class ([handle_offer], [new_task], [task_can_be_offered],
    [task_needs_scheduling], [task_running], [task_finished],
    [handle_update]) and the [CalicoScheduler] class ([can_restart],
    [get_agent], [resourceOffers], [statusUpdate]).

    Python objects are modelled by value, dictionaries as finite maps,
    and a raised exception as an explicit result.  The module [tasks]
    imported by the framework is not part of the sources; it is taken
    as a parameter (class [TasksModule]) and instantiated once, from the
    specification, to evaluate the code on concrete inputs. *)

From stdpp Require Import base option numbers strings list gmap fin_maps.

Open Scope Z_scope.

(** ** Python exceptions and results *)

Inductive exn := KeyError | AttributeError | StopIteration.

Inductive result (A : Type) :=
| Ok (a : A)
| Raise (e : exn).
Arguments Ok {A} a.
Arguments Raise {A} e.

(** ** The task classes of [tasks.py], in the order of [TASK_CLASSES] *)

Inductive TaskClass :=
| TaskRunEtcdProxy
| TaskInstallNetmodules
| TaskInstallDockerClusterStore
| TaskRestartComponents
| TaskRunCalicoNode
| TaskRunCalicoLibnetwork.

Definition TASK_CLASSES : list TaskClass :=
  [TaskRunEtcdProxy; TaskInstallNetmodules;
   TaskInstallDockerClusterStore; TaskRestartComponents;
   TaskRunCalicoNode; TaskRunCalicoLibnetwork].

#[global] Instance TaskClass_eq_dec : EqDecision TaskClass.
Proof. solve_decision. Defined.

Definition TaskClass_index (c : TaskClass) : nat :=
  match c with
  | TaskRunEtcdProxy => 0 | TaskInstallNetmodules => 1
  | TaskInstallDockerClusterStore => 2 | TaskRestartComponents => 3
  | TaskRunCalicoNode => 4 | TaskRunCalicoLibnetwork => 5
  end%nat.

Definition TaskClass_of_index (n : nat) : TaskClass :=
  match n with
  | 0 => TaskRunEtcdProxy | 1 => TaskInstallNetmodules
  | 2 => TaskInstallDockerClusterStore | 3 => TaskRestartComponents
  | 4 => TaskRunCalicoNode | _ => TaskRunCalicoLibnetwork
  end%nat.

#[global] Instance TaskClass_countable : Countable TaskClass :=
  inj_countable' TaskClass_index TaskClass_of_index
    (λ c, match c with
          | TaskRunEtcdProxy | TaskInstallNetmodules
          | TaskInstallDockerClusterStore | TaskRestartComponents
          | TaskRunCalicoNode | TaskRunCalicoLibnetwork => eq_refl
          end).

(** ** Keys of an agent's [tasks] dictionary

    [Agent.__init__] keys the dictionary by [cls.name] (a string), and
    so do [new_task] and the [task_*] queries.  Two statements of the
    source index it by the class object itself
    ([self.tasks[TaskInstallNetmodules]] in [handle_offer] and
    [self.tasks[TaskInstallDockerClusterStore] = None] in
    [handle_update]); a class object is hashable and never equal to a
    string, so it is a key of its own. *)

Inductive key :=
| KName (s : string)
| KClass (c : TaskClass).

#[global] Instance key_eq_dec : EqDecision key.
Proof. solve_decision. Defined.

#[global] Instance key_countable : Countable key :=
  inj_countable'
    (λ k, match k with KName s => inl s | KClass c => inr c end)
    (λ x, match x with inl s => KName s | inr c => KClass c end)
    (λ k, match k with KName _ | KClass _ => eq_refl end).

(** ** The imported module [tasks] (not in the sources)

    What the framework uses of it: the class attributes [name] and
    [persistent], the class method [can_accept_offer], the constructor
    (called with the agent and keyword arguments), the instance methods
    [update], [running], [finished], [failed], [restart_required], and
    the static [Task.name_from_task_id].  The methods take the class of
    the instance, since each class may override them.  They are taken
    to return (a constructor accepts any keyword arguments, a query or
    an update does not raise).  [task_id], [offer_slave_id] and
    [update_slave_id] read the fields [update.task_id],
    [offer.slave_id.value] and [update.slave_id] of the messages. *)

Class TasksModule := {
  Offer : Type;
  TaskStatus : Type;
  TaskId : Type;
  TaskData : Type;
  name : TaskClass → string;
  persistent : TaskClass → bool;
  can_accept_offer : TaskClass → Offer → bool;
  task_init : TaskClass → string → list (string * bool) → TaskData;
  update : TaskClass → TaskData → TaskStatus → TaskData;
  running : TaskClass → TaskData → bool;
  finished : TaskClass → TaskData → bool;
  failed : TaskClass → TaskData → bool;
  restart_required : TaskClass → TaskData → bool;
  name_from_task_id : TaskId → string;
  task_id : TaskStatus → TaskId;
  offer_slave_id : Offer → string;
  update_slave_id : TaskStatus → string;
}.

Section Framework.
Context `{TM : TasksModule}.

(** A task object: its class and its instance attributes. *)
Record Task := { task_class : TaskClass; task_data : TaskData }.

(** ** class Agent *)

Record Agent := {
  agent_id : string;
  tasks : gmap key (option Task);
  restarting : bool;
}.

(** [Agent.__init__]: every task name maps to [None], not restarting. *)
Definition Agent_init (agent_id : string) : Agent :=
  {| agent_id := agent_id;
     tasks := list_to_map ((λ cls, (KName (name cls), None)) <$> TASK_CLASSES);
     restarting := false |}.

(** Methods of an agent read and write [self] and may raise. *)
Definition M (A : Type) : Type := Agent → result A * Agent.

Definition ret {A} (x : A) : M A := λ self, (Ok x, self).
Definition raise {A} (e : exn) : M A := λ self, (Raise e, self).
Definition bind {A B} (m : M A) (f : A → M B) : M B :=
  λ self, match m self with
          | (Ok x, self') => f x self'
          | (Raise e, self') => (Raise e, self')
          end.

Notation "'let*' x ':=' m 'in' k" := (bind m (λ x, k))
  (at level 10, x name, m at level 100, k at level 200).
Notation "m ';;' k" := (bind m (λ _, k))
  (at level 100, k at level 200, right associativity).

(** [self.tasks[k]] *)
Definition getitem (k : key) : M (option Task) :=
  λ self, match tasks self !! k with
          | Some v => (Ok v, self)
          | None => (Raise KeyError, self)
          end.

(** [self.tasks[k] = v] *)
Definition setitem (k : key) (v : option Task) : M unit :=
  λ self, (Ok tt, {| agent_id := agent_id self;
                     tasks := <[k := v]> (tasks self);
                     restarting := restarting self |}).

(** [self.restarting = b] *)
Definition set_restarting (b : bool) : M unit :=
  λ self, (Ok tt, {| agent_id := agent_id self;
                     tasks := tasks self;
                     restarting := b |}).

Definition get_agent_id : M string := λ self, (Ok (agent_id self), self).

(** [new_task]: build the task, store it under [task.name], return it. *)
Definition new_task (cls : TaskClass) (kwargs : list (string * bool)) : M Task :=
  let* aid := get_agent_id in
  let task := {| task_class := cls; task_data := task_init cls aid kwargs |} in
  setitem (KName (name (task_class task))) (Some task);;
  ret task.

(** [task_needs_scheduling] *)
Definition task_needs_scheduling (cls : TaskClass) : M bool :=
  let* task := getitem (KName (name cls)) in
  match task with
  | None => ret true
  | Some task =>
      if persistent (task_class task)
      then ret (negb (running (task_class task) (task_data task)))
      else ret (failed (task_class task) (task_data task))
  end.

(** [task_can_be_offered] *)
Definition task_can_be_offered (cls : TaskClass) (offer : Offer) : M bool :=
  let* needs_scheduling := task_needs_scheduling cls in
  ret (needs_scheduling && can_accept_offer cls offer).

(** [task_running] *)
Definition task_running (cls : TaskClass) : M bool :=
  let* task := getitem (KName (name cls)) in
  match task with
  | None => ret false
  | Some task => ret (running (task_class task) (task_data task))
  end.

(** [task_finished] *)
Definition task_finished (cls : TaskClass) : M bool :=
  let* task := getitem (KName (name cls)) in
  match task with
  | None => ret false
  | Some task => ret (finished (task_class task) (task_data task))
  end.

(** [self.tasks[k].restart_required()]: the entry must exist ([KeyError]
    otherwise) and hold a task ([None] has no such method). *)
Definition item_restart_required (k : key) : M bool :=
  let* task := getitem k in
  match task with
  | None => raise AttributeError
  | Some task => ret (restart_required (task_class task) (task_data task))
  end.

(** [handle_offer], statement by statement. *)
Definition handle_offer (offer : Offer) : M (option Task) :=
  let* b := task_can_be_offered TaskRunEtcdProxy offer in
  if b then (let* t := new_task TaskRunEtcdProxy [] in ret (Some t)) else
  let* b := task_can_be_offered TaskInstallNetmodules offer in
  if b then (let* t := new_task TaskInstallNetmodules [] in ret (Some t)) else
  let* b := task_running TaskRunEtcdProxy in
  if b then ret None else
  let* b := task_can_be_offered TaskInstallDockerClusterStore offer in
  if b then (let* t := new_task TaskInstallDockerClusterStore [] in ret (Some t)) else
  let* b := task_finished TaskInstallNetmodules in
  if negb b then ret None else
  let* b := task_finished TaskInstallDockerClusterStore in
  if negb b then ret None else
  let* restart_required :=
    (let* r := item_restart_required (KClass TaskInstallNetmodules) in
     if r then ret true
     else item_restart_required (KClass TaskInstallDockerClusterStore)) in
  (if negb restart_required then set_restarting false else ret tt);;
  let* b := (if restart_required
             then task_can_be_offered TaskRestartComponents offer
             else ret false) in
  if b then
    (let* restart_agent := item_restart_required (KClass TaskInstallNetmodules) in
     let* restart_docker := item_restart_required (KClass TaskInstallDockerClusterStore) in
     let* t := new_task TaskRestartComponents
                 [("restart_agent", restart_agent);
                  ("restart_docker", restart_docker)] in
     ret (Some t))
  else
  if restart_required then ret None else
  let* b := task_can_be_offered TaskRunCalicoNode offer in
  if b then (let* t := new_task TaskRunCalicoNode [] in ret (Some t)) else
  let* b := task_can_be_offered TaskRunCalicoLibnetwork offer in
  if b then (let* t := new_task TaskRunCalicoLibnetwork [] in ret (Some t)) else
  ret None.

(** [next(cls for cls in TASK_CLASSES if cls.name == name)] *)
Definition next_class_named (nm : string) : M TaskClass :=
  match filter (λ cls, name cls = nm) TASK_CLASSES with
  | cls :: _ => ret cls
  | [] => raise StopIteration
  end.

(** [handle_update].  [task.update(update)] mutates the task object held
    under the key [name] (it was read from there, or [new_task] has just
    stored it there), so the entry is rewritten with the updated task. *)
Definition handle_update (upd : TaskStatus) : M unit :=
  let nm := name_from_task_id (task_id upd) in
  let* task := getitem (KName nm) in
  let* task := match task with
               | Some task => ret task
               | None => let* cls := next_class_named nm in new_task cls []
               end in
  let task := {| task_class := task_class task;
                 task_data := update (task_class task) (task_data task) upd |} in
  setitem (KName nm) (Some task);;
  if bool_decide (nm = name TaskRestartComponents)
     && negb (running (task_class task) (task_data task))
  then
    setitem (KName (name TaskInstallNetmodules)) None;;
    setitem (KClass TaskInstallDockerClusterStore) None
  else ret tt.

(** A call made on an agent by the driver's callbacks, and the agent
    after a sequence of calls (a call that raises leaves the agent as
    the statements before the exception made it). *)
Inductive agent_call :=
| CallOffer (offer : Offer)
| CallUpdate (upd : TaskStatus).

Definition agent_step (self : Agent) (c : agent_call) : Agent :=
  match c with
  | CallOffer offer => (handle_offer offer self).2
  | CallUpdate upd => (handle_update upd self).2
  end.

Definition agent_run (calls : list agent_call) (self : Agent) : Agent :=
  fold_left agent_step calls self.

(** The results of the [handle_offer] calls of a sequence of offers. *)
Fixpoint offer_results (offers : list Offer) (self : Agent)
  : list (result (option Task)) :=
  match offers with
  | [] => []
  | offer :: offers =>
      let '(r, self') := handle_offer offer self in
      r :: offer_results offers self'
  end.

(** The first task returned, if any call returns one. *)
Fixpoint first_task (rs : list (result (option Task))) : option Task :=
  match rs with
  | [] => None
  | Ok (Some t) :: _ => Some t
  | _ :: rs => first_task rs
  end.

(** ** class CalicoScheduler *)

Record CalicoScheduler := {
  agents : gmap string Agent;
  max_concurrent_restart : Z;
}.

(** [CalicoScheduler.__init__] *)
Definition CalicoScheduler_init (max_concurrent_restarts : Z) : CalicoScheduler :=
  {| agents := ∅; max_concurrent_restart := max_concurrent_restarts |}.

(** Attribute lookup on a scheduler object: [__init__] assigns [agents]
    and [max_concurrent_restart], and no other data attribute exists. *)
Inductive attr_value :=
| VInt (z : Z)
| VAgents (m : gmap string Agent).

Definition scheduler_getattr (self : CalicoScheduler) (attr : string)
  : result attr_value :=
  if bool_decide (attr = "agents") then Ok (VAgents (agents self))
  else if bool_decide (attr = "max_concurrent_restart")
       then Ok (VInt (max_concurrent_restart self))
       else Raise AttributeError.

(** [a.restarting] for [a] a key of [self.agents]: iterating a
    dictionary yields its keys, and a key is an agent id, which has no
    attribute [restarting]. *)
Definition key_restarting (a : string) : result bool := Raise AttributeError.

(** [sum(1 for a in self.agents if a.restarting)] *)
Fixpoint sum_restarting (keys : list string) : result Z :=
  match keys with
  | [] => Ok 0
  | a :: keys =>
      match key_restarting a with
      | Raise e => Raise e
      | Ok b =>
          match sum_restarting keys with
          | Raise e => Raise e
          | Ok n => Ok ((if b then 1 else 0) + n)
          end
      end
  end.

(** [can_restart].  The comparison of an integer with a dictionary is
    the one of Python 2, where a number is below any other object. *)
Definition can_restart (self : CalicoScheduler) (agent : Agent) : result bool :=
  if restarting agent then Ok true else
  match sum_restarting (map_to_list (agents self)).*1 with
  | Raise e => Raise e
  | Ok num_restarting =>
      match scheduler_getattr self "max_num_concurrent_restart" with
      | Raise e => Raise e
      | Ok (VInt cap) => Ok (num_restarting <? cap)
      | Ok (VAgents _) => Ok true
      end
  end.

(** The number of agents of the scheduler whose [restarting] flag is
    set: the quantity the restart policy is about. *)
Definition count_restarting (self : CalicoScheduler) : Z :=
  Z.of_nat (length (filter (λ a, restarting a = true)
                           (map_to_list (agents self)).*2)).

(** [can_restart] in the words of the specification, to compare with
    [can_restart] above. *)
Definition can_restart_spec (self : CalicoScheduler) (agent : Agent) : bool :=
  if restarting agent then true
  else count_restarting self <? max_concurrent_restart self.

(** [get_agent] *)
Definition get_agent (aid : string) (self : CalicoScheduler)
  : Agent * CalicoScheduler :=
  match agents self !! aid with
  | Some agent => (agent, self)
  | None =>
      let agent := Agent_init aid in
      (agent, {| agents := <[aid := agent]> (agents self);
                 max_concurrent_restart := max_concurrent_restart self |})
  end.

(** The agent object [aid] after a method has mutated it. *)
Definition store_agent (aid : string) (agent : Agent) (self : CalicoScheduler)
  : CalicoScheduler :=
  {| agents := <[aid := agent]> (agents self);
     max_concurrent_restart := max_concurrent_restart self |}.

(** Calls made on the driver. *)
Inductive driver_call :=
| declineOffer (offer : Offer)
| acceptOffers (offer : Offer) (task : Task).

(** [resourceOffers]: the driver calls made, the exception that ended
    the loop if any, and the scheduler afterwards. *)
Fixpoint resourceOffers (offers : list Offer) (self : CalicoScheduler)
  : list driver_call * option exn * CalicoScheduler :=
  match offers with
  | [] => ([], None, self)
  | offer :: offers =>
      let aid := offer_slave_id offer in
      let '(agent, self) := get_agent aid self in
      let '(r, agent) := handle_offer offer agent in
      let self := store_agent aid agent self in
      match r with
      | Raise e => ([], Some e, self)
      | Ok None =>
          let '(calls, e, self) := resourceOffers offers self in
          (declineOffer offer :: calls, e, self)
      | Ok (Some task) =>
          let '(calls, e, self) := resourceOffers offers self in
          (acceptOffers offer task :: calls, e, self)
      end
  end.

(** [statusUpdate] *)
Definition statusUpdate (upd : TaskStatus) (self : CalicoScheduler)
  : option exn * CalicoScheduler :=
  let aid := update_slave_id upd in
  let '(agent, self) := get_agent aid self in
  let '(r, agent) := handle_update upd agent in
  (match r with Ok _ => None | Raise e => Some e end,
   store_agent aid agent self).

(** Events delivered by the driver, and the scheduler after a sequence
    of them, starting from a new scheduler. *)
Inductive event :=
| EvOffers (offers : list Offer)
| EvUpdate (upd : TaskStatus).

Definition scheduler_step (self : CalicoScheduler) (e : event) : CalicoScheduler :=
  match e with
  | EvOffers offers => (resourceOffers offers self).2
  | EvUpdate upd => (statusUpdate upd self).2
  end.

Definition scheduler_run (events : list event) (self : CalicoScheduler)
  : CalicoScheduler :=
  fold_left scheduler_step events self.

(** ** Notions used to reason on the methods *)

(** A method that only reads the [tasks] dictionary: it leaves the
    agent as it is and its result does not depend on [restarting]. *)
Definition reads {A} (m : M A) : Prop :=
  ∀ aid tk rs,
    m (Build_Agent aid tk rs)
    = ((m (Build_Agent aid tk false)).1, Build_Agent aid tk rs).

(** The effect of an offer handler on an agent: a result and a
    dictionary that do not depend on the [restarting] flag, which is
    either cleared or kept; without a task returned, the dictionary is
    the one before the call. *)
Definition offer_shape (m : M (option Task)) : Prop :=
  ∀ aid tk, ∃ r tk' (cleared : bool),
    (∀ rs, m (Build_Agent aid tk rs)
           = (r, Build_Agent aid tk' (if cleared then false else rs))) ∧
    match r with Ok (Some _) => True | _ => tk' = tk end.

(** The classes launched by the rungs above the restart decision. *)
Definition FIRST_RUNGS : list TaskClass :=
  [TaskRunEtcdProxy; TaskInstallNetmodules; TaskInstallDockerClusterStore].

(** No statement of the source stores under the class object
    [TaskInstallNetmodules]. *)
Definition no_netmodules_class_key (self : Agent) : Prop :=
  tasks self !! KClass TaskInstallNetmodules = None.

(** An offer handler that keeps that key absent and, from such an
    agent, returns tasks of the first rungs only. *)
Definition first_rungs_only (m : M (option Task)) : Prop :=
  ∀ self, no_netmodules_class_key self →
    no_netmodules_class_key (m self).2 ∧
    ∀ t, (m self).1 = Ok (Some t) → task_class t ∈ FIRST_RUNGS.

(** Every agent of the scheduler has its [restarting] flag down. *)
Definition none_restarting (self : CalicoScheduler) : Prop :=
  ∀ aid agent, agents self !! aid = Some agent → restarting agent = false.

(** The offer a driver call answers. *)
Definition call_offer (c : driver_call) : Offer :=
  match c with
  | declineOffer offer => offer
  | acceptOffers offer _ => offer
  end.

(** An offer handler whose returned task is a task it has just built
    for the agent and stored under the name of its class, nothing else
    of the dictionary being changed. *)
Definition tracks_returned (m : M (option Task)) : Prop :=
  ∀ self t self', m self = (Ok (Some t), self') →
    tasks self' = <[KName (name (task_class t)) := Some t]> (tasks self) ∧
    agent_id self' = agent_id self ∧
    ∃ kwargs, task_data t = task_init (task_class t) (agent_id self) kwargs.

(** An offer handler that returns tasks of one class only. *)
Definition returns_class (cls : TaskClass) (m : M (option Task)) : Prop :=
  ∀ self t, (m self).1 = Ok (Some t) → task_class t = cls.

(** An offer handler that returns a task only when
    [task_can_be_offered] holds of its class and the offer. *)
Definition offered_only (offer : Offer) (m : M (option Task)) : Prop :=
  ∀ aid tk rs t,
    (m (Build_Agent aid tk rs)).1 = Ok (Some t) →
    (task_can_be_offered (task_class t) offer (Build_Agent aid tk false)).1
    = Ok true.

(** Every task name has an entry in the dictionary of the agent. *)
Definition names_present (self : Agent) : Prop :=
  ∀ cls, is_Some (tasks self !! KName (name cls)).

(** The string keys of the dictionary are names of task classes. *)
Definition names_only (self : Agent) : Prop :=
  ∀ nm, is_Some (tasks self !! KName nm) → ∃ cls, nm = name cls.

(** A property of every agent of the scheduler, given its key. *)
Definition all_agents (I : string → Agent → Prop) (self : CalicoScheduler)
  : Prop :=
  ∀ aid agent, agents self !! aid = Some agent → I aid agent.

End Framework.

(** ** A model of the module [tasks] *)

(** The module [tasks] (classes [Task], [TaskRunEtcdProxy], ...) is not
    in the sources; the definitions below follow what the specification
    says of it. *)

(** Modelled from the spec: the run state of a task (the class [Task]
    is missing), one of not-started, running, finished, failed. *)
Inductive RunState := NotStarted | Running | Finished | Failed.

#[global] Instance RunState_eq_dec : EqDecision RunState.
Proof. solve_decision. Defined.

(** Modelled from the spec: the instance attributes of a task (missing
    class [Task]): its run state and whether its last run asked for a
    restart. *)
Record spec_data := { run_state : RunState; restart_flag : bool }.

(** Modelled from the spec: a status update (missing, a message of the
    driver): the composite task identifier (agent id, task name), the
    new run state and the restart signal of the run. *)
Record spec_status := {
  status_task_id : string * string;
  status_state : RunState;
  status_restart : bool;
}.

(** Modelled from the spec: an offer (missing, a message of the
    driver): the agent it comes from and the task classes whose
    resource needs it fulfils. *)
Record spec_offer := { offer_agent : string; offer_fits : list TaskClass }.

(** Modelled from the spec: the class attribute [name] (missing).  The
    strings are placeholders; the specification only says that the
    names of the task types are distinct. *)
Definition spec_name (c : TaskClass) : string :=
  match c with
  | TaskRunEtcdProxy => "calico-etcd-proxy"
  | TaskInstallNetmodules => "calico-install-netmodules"
  | TaskInstallDockerClusterStore => "calico-install-docker-cluster-store"
  | TaskRestartComponents => "calico-restart-components"
  | TaskRunCalicoNode => "calico-node"
  | TaskRunCalicoLibnetwork => "calico-libnetwork"
  end.

(** Modelled from the spec: the class attribute [persistent] (missing);
    the daemons (etcd proxy, Calico node, libnetwork driver) are the
    persistent task types, the install and restart tasks are one-shot. *)
Definition spec_persistent (c : TaskClass) : bool :=
  match c with
  | TaskRunEtcdProxy | TaskRunCalicoNode | TaskRunCalicoLibnetwork => true
  | _ => false
  end.

(** Modelled from the spec: the method [restart_required] (missing),
    meaningful for the two install tasks and false for the others. *)
Definition spec_restart_required (c : TaskClass) (d : spec_data) : bool :=
  match c with
  | TaskInstallNetmodules | TaskInstallDockerClusterStore => restart_flag d
  | _ => false
  end.

(** Modelled from the spec: the module [tasks] (missing).  A new task
    is not started; [update] records the state and the restart signal
    of the status update; [running], [finished] and [failed] test the
    run state; [name_from_task_id] is the second component of the
    composite identifier. *)
Definition spec_tasks : TasksModule := {|
  Offer := spec_offer;
  TaskStatus := spec_status;
  TaskId := string * string;
  TaskData := spec_data;
  name := spec_name;
  persistent := spec_persistent;
  can_accept_offer := λ c offer, bool_decide (c ∈ offer_fits offer);
  task_init := λ _ _ _, {| run_state := NotStarted; restart_flag := false |};
  update := λ _ _ upd, {| run_state := status_state upd;
                          restart_flag := status_restart upd |};
  running := λ _ d, bool_decide (run_state d = Running);
  finished := λ _ d, bool_decide (run_state d = Finished);
  failed := λ _ d, bool_decide (run_state d = Failed);
  restart_required := spec_restart_required;
  name_from_task_id := snd;
  task_id := status_task_id;
  offer_slave_id := offer_agent;
  update_slave_id := λ upd, (status_task_id upd).1;
|}.

(** ** Concrete agents, offers and status updates over that model *)

Definition status_of (cls : TaskClass) (st : RunState) (restart : bool)
  : spec_status :=
  {| status_task_id := ("agent-1", spec_name cls);
     status_state := st; status_restart := restart |}.

Definition offer_fitting (fits : list TaskClass) : spec_offer :=
  {| offer_agent := "agent-1"; offer_fits := fits |}.

Definition call_update (cls : TaskClass) (st : RunState) (restart : bool)
  : agent_call (TM := spec_tasks) :=
  CallUpdate (TM := spec_tasks) (status_of cls st restart).

Definition fresh_agent : Agent (TM := spec_tasks) := Agent_init "agent-1".

(** The etcd proxy has been launched and no status update has come. *)
Definition agent_etcd_launched : Agent (TM := spec_tasks) :=
  agent_run [CallOffer (TM := spec_tasks) (offer_fitting TASK_CLASSES)]
    fresh_agent.

(** Etcd proxy running, both install tasks finished, no restart asked. *)
Definition agent_installed : Agent (TM := spec_tasks) :=
  agent_run [call_update TaskRunEtcdProxy Running false;
             call_update TaskInstallNetmodules Finished false;
             call_update TaskInstallDockerClusterStore Finished false]
    fresh_agent.

(** Both install tasks finished, netmodules asking for a restart; the
    etcd proxy is not tracked. *)
Definition agent_restart_needed : Agent (TM := spec_tasks) :=
  agent_run [call_update TaskInstallNetmodules Finished true;
             call_update TaskInstallDockerClusterStore Finished false]
    fresh_agent.

(** The same with the etcd proxy running. *)
Definition agent_restart_needed_etcd : Agent (TM := spec_tasks) :=
  agent_run [call_update TaskRunEtcdProxy Running false;
             call_update TaskInstallNetmodules Finished true;
             call_update TaskInstallDockerClusterStore Finished false]
    fresh_agent.

(** Both install tasks finished and the restart task running. *)
Definition agent_restart_running : Agent (TM := spec_tasks) :=
  agent_run [call_update TaskInstallNetmodules Finished true;
             call_update TaskInstallDockerClusterStore Finished false;
             call_update TaskRestartComponents Running false]
    fresh_agent.

Definition task_in (cls : TaskClass) (st : RunState) (restart : bool)
  : Task (TM := spec_tasks) :=
  @Build_Task spec_tasks cls {| run_state := st; restart_flag := restart |}.

(** * Properties of the framework, for any module [tasks] *)

Section FrameworkFacts.
Context `{TM : TasksModule}.

Lemma TASK_CLASSES_complete (cls : TaskClass) : cls ∈ TASK_CLASSES.
Proof. unfold TASK_CLASSES. destruct cls; set_solver. Qed.

Lemma filter_name_head (cls : TaskClass) (l : list TaskClass) :
  (∀ c1 c2, name c1 = name c2 → c1 = c2) →
  cls ∈ l →
  ∃ rest, filter (λ c, name c = name cls) l = cls :: rest.
Proof.
  intros Hinj. induction l as [|c l IH]; intros Hin.
  - by apply elem_of_nil in Hin.
  - rewrite filter_cons. case_decide as Hc.
    + apply Hinj in Hc as ->. eauto.
    + apply elem_of_cons in Hin as [->|Hin]; [done|]. by apply IH.
Qed.

Lemma next_class_named_name (cls : TaskClass) (self : Agent) :
  (∀ c1 c2, name c1 = name c2 → c1 = c2) →
  next_class_named (name cls) self = (Ok cls, self).
Proof.
  intros Hinj. unfold next_class_named.
  destruct (filter_name_head cls TASK_CLASSES Hinj (TASK_CLASSES_complete cls))
    as [rest ->].
  done.
Qed.

(** C7. [task_needs_scheduling] answers true when no instance of the
    class is tracked; for a tracked instance of a persistent class it
    answers true exactly when the instance is not running, and for a
    tracked instance of a non-persistent class exactly when the
    instance has failed.  The agent is left as it was. *)
Theorem task_needs_scheduling_spec (self : Agent) (cls : TaskClass) :
  (tasks self !! KName (name cls) = Some None →
   task_needs_scheduling cls self = (Ok true, self)) ∧
  (∀ task, tasks self !! KName (name cls) = Some (Some task) →
   ∃ b, task_needs_scheduling cls self = (Ok b, self) ∧
        if persistent (task_class task)
        then b = true ↔ running (task_class task) (task_data task) = false
        else b = true ↔ failed (task_class task) (task_data task) = true).
Proof.
  unfold task_needs_scheduling, bind, getitem, ret. split.
  - by intros ->.
  - intros task ->.
    destruct (persistent (task_class task)) eqn:Hp.
    + eexists; split; [done|]. by rewrite negb_true_iff.
    + by eexists.
Qed.

(** C8. A status update whose task identifier decodes to the name of a
    class for which the agent tracks no instance does not raise: a new
    instance of that class is created and stored under the name (what
    [new_task] does), and the entry afterwards holds that instance with
    the update applied to it. *)
Theorem handle_update_untracked
    (self : Agent) (upd : TaskStatus) (cls : TaskClass) :
  (∀ c1 c2, name c1 = name c2 → c1 = c2) →
  name_from_task_id (task_id upd) = name cls →
  tasks self !! KName (name cls) = Some None →
  let fresh := {| task_class := cls;
                  task_data := task_init cls (agent_id self) [] |} in
  let updated := {| task_class := cls;
                    task_data := update cls (task_data fresh) upd |} in
  (new_task cls [] self).1 = Ok fresh ∧
  tasks (new_task cls [] self).2 !! KName (name cls) = Some (Some fresh) ∧
  ∃ self', handle_update upd self = (Ok tt, self') ∧
           tasks self' !! KName (name cls) = Some (Some updated).
Proof.
  intros Hinj Hname Hnone fresh updated. split; [done|]. split.
  { cbn. by rewrite lookup_insert_eq. }
  unfold handle_update. rewrite Hname.
  unfold bind at 1. unfold getitem at 1. rewrite Hnone.
  unfold bind at 1. unfold bind at 1.
  rewrite next_class_named_name by done.
  cbn [new_task bind get_agent_id setitem ret task_class task_data].
  case_match; cbn; eexists; (split; [reflexivity|]); cbn.
  - rewrite lookup_insert_ne by done.
    rewrite lookup_insert_ne.
    + by rewrite lookup_insert_eq.
    + intros [= Heq]. apply Hinj in Heq.
      match goal with H : _ && _ = true |- _ =>
        apply andb_true_iff in H as [H _]; apply bool_decide_eq_true in H;
        apply Hinj in H end.
      congruence.
  - by rewrite lookup_insert_eq.
Qed.

(** *** Read-only methods *)

Lemma reads_ret {A} (x : A) : reads (ret x).
Proof. done. Qed.

Lemma reads_raise {A} (e : exn) : reads (raise (A := A) e).
Proof. done. Qed.

Lemma reads_getitem (k : key) : reads (getitem k).
Proof. intros aid tk rs. unfold getitem. cbn. by destruct (tk !! k). Qed.

Lemma reads_bind {A B} (m : M A) (k : A → M B) :
  reads m → (∀ x, reads (k x)) → reads (bind m k).
Proof.
  intros Hm Hk aid tk rs. unfold bind.
  rewrite (Hm aid tk rs).
  destruct (m (Build_Agent aid tk false)) as [r s] eqn:E.
  pose proof (Hm aid tk false) as E'. rewrite E in E'. simplify_eq/=.
  destruct r as [x|e]; [apply Hk|done].
Qed.

Lemma reads_if {A} (b : bool) (m1 m2 : M A) :
  reads m1 → reads m2 → reads (if b then m1 else m2).
Proof. by destruct b. Qed.

Lemma reads_task_needs_scheduling cls : reads (task_needs_scheduling cls).
Proof.
  apply reads_bind; [apply reads_getitem|].
  intros [task|]; [apply reads_if|]; apply reads_ret.
Qed.

Lemma reads_task_can_be_offered cls offer :
  reads (task_can_be_offered cls offer).
Proof.
  apply reads_bind; [apply reads_task_needs_scheduling|].
  intros; apply reads_ret.
Qed.

Lemma reads_task_running cls : reads (task_running cls).
Proof.
  apply reads_bind; [apply reads_getitem|]. intros [task|]; apply reads_ret.
Qed.

Lemma reads_task_finished cls : reads (task_finished cls).
Proof.
  apply reads_bind; [apply reads_getitem|]. intros [task|]; apply reads_ret.
Qed.

Lemma reads_item_restart_required k : reads (item_restart_required k).
Proof.
  apply reads_bind; [apply reads_getitem|].
  intros [task|]; [apply reads_ret|apply reads_raise].
Qed.

Lemma reads_unchanged {A} (m : M A) (self : Agent) :
  reads m → (m self).2 = self.
Proof. intros Hm. destruct self as [aid tk rs]. by rewrite (Hm aid tk rs). Qed.

Ltac solve_reads :=
  first [ apply reads_task_can_be_offered | apply reads_task_running
        | apply reads_task_finished | apply reads_item_restart_required
        | apply reads_ret
        | apply reads_bind; [apply reads_item_restart_required|];
          intros []; [apply reads_ret|apply reads_item_restart_required] ].

(** *** The shape of [handle_offer] *)

Lemma shape_ret_None : offer_shape (ret None).
Proof. intros aid tk. by exists (Ok None), tk, false. Qed.

Lemma shape_new_task cls kwargs :
  offer_shape (bind (new_task cls kwargs) (λ t, ret (Some t))).
Proof.
  intros aid tk.
  set (t := {| task_class := cls; task_data := task_init cls aid kwargs |}).
  exists (Ok (Some t)), (<[KName (name cls) := Some t]> tk), false.
  split; [|done]. intros rs. reflexivity.
Qed.

Lemma shape_bind_reads {A} (m : M A) (k : A → M (option Task)) :
  reads m → (∀ x, offer_shape (k x)) → offer_shape (bind m k).
Proof.
  intros Hm Hk aid tk.
  destruct (m (Build_Agent aid tk false)).1 as [x|e] eqn:E.
  - destruct (Hk x aid tk) as (r & tk' & cleared & Hrun & Hframe).
    exists r, tk', cleared. split; [|done].
    intros rs. unfold bind. by rewrite (Hm aid tk rs), E.
  - exists (Raise e), tk, false. split; [|done].
    intros rs. unfold bind. by rewrite (Hm aid tk rs), E.
Qed.

Lemma shape_clear (k : M (option Task)) :
  offer_shape k → offer_shape (bind (set_restarting false) (λ _, k)).
Proof.
  intros Hk aid tk.
  destruct (Hk aid tk) as (r & tk' & cleared & Hrun & Hframe).
  exists r, tk', true. split; [|done].
  intros rs. unfold bind, set_restarting. cbn. rewrite Hrun. by destruct cleared.
Qed.

Lemma handle_offer_shape offer : offer_shape (handle_offer offer).
Proof.
  unfold handle_offer.
  repeat first
    [ apply shape_ret_None
    | apply shape_new_task
    | apply shape_clear
    | apply shape_bind_reads; [solve_reads | intros []]
    | match goal with
      | |- offer_shape (if ?b then _ else _) => destruct b
      | |- offer_shape (bind (if ?b then _ else _) _) => destruct b; cbn [negb]
      end ].
Qed.

(** C9. When [handle_offer] returns [None], the agent keeps its id and
    its [tasks] dictionary (no instance is created), its [restarting]
    flag is the one before the call or is cleared, and the same call on
    the resulting agent returns [None] again and changes nothing. *)
Theorem handle_offer_none_unchanged
    (self self' : Agent) (offer : Offer) :
  handle_offer offer self = (Ok None, self') →
  tasks self' = tasks self ∧
  agent_id self' = agent_id self ∧
  (restarting self' = restarting self ∨ restarting self' = false) ∧
  handle_offer offer self' = (Ok None, self').
Proof.
  destruct self as [aid tk rs].
  destruct (handle_offer_shape offer aid tk)
    as (r & tk' & cleared & Hrun & Hframe).
  rewrite Hrun. intros [= -> <-]. subst tk'. cbn. split_and!; try done.
  - destruct cleared; auto.
  - rewrite Hrun. by destruct cleared.
Qed.

Lemma handle_offer_restarting (self : Agent) (offer : Offer) :
  restarting (handle_offer offer self).2 = restarting self ∨
  restarting (handle_offer offer self).2 = false.
Proof.
  destruct self as [aid tk rs].
  destruct (handle_offer_shape offer aid tk)
    as (r & tk' & cleared & Hrun & Hframe).
  rewrite Hrun. cbn. destruct cleared; auto.
Qed.

(** *** Which tasks [handle_offer] can return *)

Lemma first_rungs_ret_None : first_rungs_only (ret None).
Proof. intros self Hno. split; [done|]. by intros t [=]. Qed.

Lemma first_rungs_new_task cls :
  cls ∈ FIRST_RUNGS →
  first_rungs_only (bind (new_task cls []) (λ t, ret (Some t))).
Proof.
  intros Hcls self Hno. cbn. split.
  - unfold no_netmodules_class_key. cbn. by rewrite lookup_insert_ne.
  - by intros t [= <-].
Qed.

Lemma first_rungs_bind_reads {A} (m : M A) (k : A → M (option Task)) :
  reads m → (∀ x, first_rungs_only (k x)) → first_rungs_only (bind m k).
Proof.
  intros Hm Hk self Hno. unfold bind.
  pose proof (reads_unchanged m self Hm) as Hself.
  destruct (m self) as [[x|e] s]; cbn in Hself; subst s.
  - by apply Hk.
  - split; [done|]. by intros t [=].
Qed.

Lemma first_rungs_restart_decision {A}
    (k1 : bool → M A) (k2 : A → M (option Task)) :
  first_rungs_only
    (bind (bind (item_restart_required (KClass TaskInstallNetmodules)) k1) k2).
Proof.
  intros self Hno. unfold no_netmodules_class_key in *.
  unfold bind, item_restart_required, getitem.
  unfold bind. rewrite !Hno. cbn. split; [done|]. by intros t [=].
Qed.

Lemma handle_offer_first_rungs offer : first_rungs_only (handle_offer offer).
Proof.
  unfold handle_offer.
  repeat first
    [ apply first_rungs_ret_None
    | apply first_rungs_restart_decision
    | apply first_rungs_new_task; unfold FIRST_RUNGS; set_solver
    | apply first_rungs_bind_reads; [solve_reads | intros []]
    | match goal with
      | |- first_rungs_only (if ?b then _ else _) => destruct b
      end ].
Qed.

(** *** [handle_update] *)

Lemma next_class_named_unchanged nm (self : Agent) :
  (next_class_named nm self).2 = self.
Proof. unfold next_class_named. by destruct (filter _ _). Qed.

Lemma handle_update_inv (upd : TaskStatus) (self self' : Agent) r :
  handle_update upd self = (r, self') →
  agent_id self' = agent_id self ∧
  restarting self' = restarting self ∧
  (no_netmodules_class_key self → no_netmodules_class_key self').
Proof.
  unfold handle_update, no_netmodules_class_key.
  unfold bind at 1. unfold getitem at 1.
  destruct (tasks self !! KName _) as [[task|]|].
  - unfold bind, ret, setitem. cbn.
    case_match; cbn; intros [= <- <-]; cbn; split_and!; try done;
      intros ?; by rewrite !lookup_insert_ne.
  - unfold bind at 1. unfold bind at 1.
    pose proof (next_class_named_unchanged
                  (name_from_task_id (task_id upd)) self) as Hself.
    destruct (next_class_named _ self) as [[cls|e] s]; cbn in Hself; subst s.
    + unfold bind, ret, setitem, new_task, get_agent_id. cbn.
      case_match; cbn; intros [= <- <-]; cbn; split_and!; try done;
        intros ?; by rewrite !lookup_insert_ne.
    + by intros [= <- <-].
  - by intros [= <- <-].
Qed.

Lemma handle_update_frame (upd : TaskStatus) (self : Agent) :
  agent_id (handle_update upd self).2 = agent_id self ∧
  restarting (handle_update upd self).2 = restarting self ∧
  (no_netmodules_class_key self →
   no_netmodules_class_key (handle_update upd self).2).
Proof.
  destruct (handle_update upd self) as [r self'] eqn:E.
  by apply handle_update_inv in E.
Qed.

(** The update of a restart task never touches the entry of the
    cluster-store install task: the second assignment of the special
    case writes under the class object, not under its name. *)
Lemma handle_update_restart_keeps_cluster_store
    (upd : TaskStatus) (self : Agent) :
  (∀ c1 c2, name c1 = name c2 → c1 = c2) →
  name_from_task_id (task_id upd) = name TaskRestartComponents →
  tasks (handle_update upd self).2 !! KName (name TaskInstallDockerClusterStore)
  = tasks self !! KName (name TaskInstallDockerClusterStore).
Proof.
  intros Hinj Hname.
  assert (name TaskInstallNetmodules ≠ name TaskInstallDockerClusterStore)
    as Hne1 by (intros H%Hinj; discriminate).
  assert (name TaskRestartComponents ≠ name TaskInstallDockerClusterStore)
    as Hne2 by (intros H%Hinj; discriminate).
  unfold handle_update. rewrite Hname.
  unfold bind at 1. unfold getitem at 1.
  destruct (tasks self !! KName _) as [[task|]|]; [| |done].
  - unfold bind, ret, setitem. cbn.
    case_match; cbn; rewrite ?lookup_insert_ne; congruence.
  - unfold bind at 1. unfold bind at 1.
    rewrite next_class_named_name by done.
    unfold bind, ret, setitem, new_task, get_agent_id. cbn.
    case_match; cbn; rewrite ?lookup_insert_ne; congruence.
Qed.

(** *** Agents reached from a new agent *)

Lemma agent_step_restarting (self : Agent) (c : agent_call) :
  restarting self = false → restarting (agent_step self c) = false.
Proof.
  intros Hrs. destruct c as [offer|upd]; cbn.
  - destruct (handle_offer_restarting self offer); congruence.
  - destruct (handle_update_frame upd self) as (_ & -> & _). done.
Qed.

Lemma agent_run_restarting (calls : list agent_call) (self : Agent) :
  restarting self = false → restarting (agent_run calls self) = false.
Proof.
  revert self. induction calls as [|c calls IH]; intros self Hrs; [done|].
  cbn. apply IH. by apply agent_step_restarting.
Qed.

Lemma agent_run_no_class_key (calls : list agent_call) (self : Agent) :
  no_netmodules_class_key self →
  no_netmodules_class_key (agent_run calls self).
Proof.
  revert self. induction calls as [|c calls IH]; intros self Hno; [done|].
  cbn. apply IH. destruct c as [offer|upd]; cbn.
  - by apply handle_offer_first_rungs.
  - by apply handle_update_frame.
Qed.

Lemma Agent_init_no_class_key aid : no_netmodules_class_key (Agent_init aid).
Proof.
  unfold no_netmodules_class_key, Agent_init. cbn.
  by rewrite !lookup_insert_ne.
Qed.

(** From a new agent, whatever calls have been made, [handle_offer]
    returns tasks of the first three rungs only: the restart decision
    raises [KeyError] before any later rung. *)
Lemma reachable_offer_first_rungs
    (aid : string) (calls : list agent_call) (offer : Offer) (t : Task) :
  (handle_offer offer (agent_run calls (Agent_init aid))).1 = Ok (Some t) →
  task_class t ∈ FIRST_RUNGS.
Proof.
  apply handle_offer_first_rungs, agent_run_no_class_key,
    Agent_init_no_class_key.
Qed.

(** Over any sequence of offers, the first task returned to the
    scheduler by such an agent is one of the first three rungs. *)
Lemma first_task_first_rungs
    (offers : list Offer) (self : Agent) (t : Task) :
  no_netmodules_class_key self →
  first_task (offer_results offers self) = Some t →
  task_class t ∈ FIRST_RUNGS.
Proof.
  revert self. induction offers as [|offer offers IH]; intros self Hno; [done|].
  cbn. destruct (handle_offer_first_rungs offer self Hno) as [Hno' Hr].
  destruct (handle_offer offer self) as [r self']. cbn in *.
  destruct r as [[t'|]|e]; cbn; [|by apply IH..].
  intros [= <-]. by apply Hr.
Qed.

(** *** The ladder stalls at the wrong place *)

(** When the etcd proxy is running and the first two rungs do not
    launch, [handle_offer] returns [None], whatever the offer and the
    other tasks. *)
Lemma handle_offer_stalls_when_etcd_runs (self : Agent) (offer : Offer) :
  task_can_be_offered TaskRunEtcdProxy offer self = (Ok false, self) →
  task_can_be_offered TaskInstallNetmodules offer self = (Ok false, self) →
  task_running TaskRunEtcdProxy self = (Ok true, self) →
  handle_offer offer self = (Ok None, self).
Proof.
  intros H1 H2 H3. unfold handle_offer.
  unfold bind at 1. rewrite H1.
  unfold bind at 1. rewrite H2.
  unfold bind at 1. by rewrite H3.
Qed.

(** When it is not running, the cluster-store install task is launched
    as soon as the offer allows. *)
Lemma handle_offer_proceeds_when_etcd_down (self : Agent) (offer : Offer) :
  task_can_be_offered TaskRunEtcdProxy offer self = (Ok false, self) →
  task_can_be_offered TaskInstallNetmodules offer self = (Ok false, self) →
  task_running TaskRunEtcdProxy self = (Ok false, self) →
  task_can_be_offered TaskInstallDockerClusterStore offer self = (Ok true, self) →
  (handle_offer offer self).1
  = Ok (Some {| task_class := TaskInstallDockerClusterStore;
                task_data := task_init TaskInstallDockerClusterStore
                               (agent_id self) [] |}).
Proof.
  intros H1 H2 H3 H4. unfold handle_offer.
  unfold bind at 1. rewrite H1.
  unfold bind at 1. rewrite H2.
  unfold bind at 1. rewrite H3.
  unfold bind at 1. by rewrite H4.
Qed.

(** *** The scheduler *)

Lemma can_restart_when_restarting (self : CalicoScheduler) (agent : Agent) :
  restarting agent = true → can_restart self agent = Ok true.
Proof. unfold can_restart. by intros ->. Qed.

(** For an agent that is not restarting, [can_restart] never answers:
    the sum raises on the first key of [agents], and with no agent the
    attribute [max_num_concurrent_restart] does not exist. *)
Lemma can_restart_raises (self : CalicoScheduler) (agent : Agent) :
  restarting agent = false → can_restart self agent = Raise AttributeError.
Proof.
  unfold can_restart. intros ->.
  by destruct ((map_to_list (agents self)).*1) as [|a keys].
Qed.

Lemma sum_restarting_cases (keys : list string) :
  sum_restarting keys = Ok 0 ∨ sum_restarting keys = Raise AttributeError.
Proof. destruct keys; cbn; auto. Qed.

Lemma filter_none {A} (P : A → Prop) `{∀ x, Decision (P x)} (l : list A) :
  (∀ x, x ∈ l → ¬ P x) → filter P l = [].
Proof.
  induction l as [|x l IH]; intros Hl; [done|].
  rewrite filter_cons. case_decide as HP.
  - destruct (Hl x); [by left|done].
  - apply IH. intros y Hy. apply Hl. by right.
Qed.

Lemma none_restarting_count (self : CalicoScheduler) :
  none_restarting self → count_restarting self = 0.
Proof.
  intros Hnone. unfold count_restarting. rewrite filter_none; [done|].
  intros agent Hin Hrs.
  apply list_elem_of_fmap in Hin as ([aid agent'] & -> & Hin).
  apply elem_of_map_to_list in Hin. apply Hnone in Hin. cbn in Hrs. congruence.
Qed.

Lemma none_restarting_init cap : none_restarting (CalicoScheduler_init cap).
Proof. intros aid agent. cbn. by rewrite lookup_empty. Qed.

Lemma none_restarting_store aid (agent : Agent) (self : CalicoScheduler) :
  restarting agent = false → none_restarting self →
  none_restarting (store_agent aid agent self).
Proof.
  intros Hrs Hnone aid' agent'. cbn. rewrite lookup_insert.
  case_decide; [by intros [= <-]|apply Hnone].
Qed.

Lemma none_restarting_get_agent aid (self : CalicoScheduler) :
  none_restarting self →
  restarting (get_agent aid self).1 = false ∧
  none_restarting (get_agent aid self).2.
Proof.
  intros Hnone. unfold get_agent.
  destruct (agents self !! aid) as [agent|] eqn:E; cbn.
  - split; [by eapply Hnone|done].
  - split; [done|]. by apply (none_restarting_store aid (Agent_init aid)).
Qed.

Lemma none_restarting_resourceOffers offers (self : CalicoScheduler) :
  none_restarting self → none_restarting (resourceOffers offers self).2.
Proof.
  revert self. induction offers as [|offer offers IH]; intros self Hnone; [done|].
  cbn [resourceOffers].
  destruct (none_restarting_get_agent (offer_slave_id offer) self Hnone)
    as [Hrs Hnone'].
  destruct (get_agent _ self) as [agent self1]. cbn in Hrs, Hnone'.
  pose proof (handle_offer_restarting agent offer) as Hoffer.
  destruct (handle_offer offer agent) as [r agent']. cbn in Hoffer.
  assert (none_restarting (store_agent (offer_slave_id offer) agent' self1))
    as Hstored.
  { apply none_restarting_store; [|done]. destruct Hoffer; congruence. }
  specialize (IH _ Hstored).
  destruct r as [[task|]|e]; [| |done];
    by destruct (resourceOffers offers _) as [[calls e] self2].
Qed.

Lemma none_restarting_statusUpdate upd (self : CalicoScheduler) :
  none_restarting self → none_restarting (statusUpdate upd self).2.
Proof.
  intros Hnone. unfold statusUpdate.
  destruct (none_restarting_get_agent (update_slave_id upd) self Hnone)
    as [Hrs Hnone'].
  destruct (get_agent _ self) as [agent self1]. cbn in Hrs, Hnone'.
  destruct (handle_update_frame upd agent) as (_ & Hupd & _).
  destruct (handle_update upd agent) as [r agent']. cbn in *.
  apply none_restarting_store; [congruence|done].
Qed.

Lemma none_restarting_run events (self : CalicoScheduler) :
  none_restarting self → none_restarting (scheduler_run events self).
Proof.
  revert self. induction events as [|e events IH]; intros self Hnone; [done|].
  cbn. apply IH. destruct e as [offers|upd]; cbn.
  - by apply none_restarting_resourceOffers.
  - by apply none_restarting_statusUpdate.
Qed.

(** C10. The [restarting] flag is never raised: a new agent has it
    down, [handle_offer] leaves it as it is or clears it,
    [handle_update] leaves it as it is; so it is down on every agent
    obtained from a new one by calls of [handle_offer] and
    [handle_update], no agent of a scheduler is ever restarting, the
    number of restarting agents is zero, and the sum computed by
    [can_restart] is never a number other than zero. *)
Theorem restarting_never_raised :
  (∀ aid, restarting (Agent_init aid) = false) ∧
  (∀ offer self,
     restarting (handle_offer offer self).2 = restarting self ∨
     restarting (handle_offer offer self).2 = false) ∧
  (∀ upd self, restarting (handle_update upd self).2 = restarting self) ∧
  (∀ aid calls, restarting (agent_run calls (Agent_init aid)) = false) ∧
  (∀ cap events,
     let self := scheduler_run events (CalicoScheduler_init cap) in
     none_restarting self ∧
     count_restarting self = 0 ∧
     (sum_restarting (map_to_list (agents self)).*1 = Ok 0 ∨
      sum_restarting (map_to_list (agents self)).*1 = Raise AttributeError)).
Proof.
  split_and!.
  - done.
  - intros. apply handle_offer_restarting.
  - intros. apply handle_update_frame.
  - intros. by apply agent_run_restarting.
  - intros cap events self.
    assert (none_restarting self) as Hnone
      by apply none_restarting_run, none_restarting_init.
    split_and!; [done|by apply none_restarting_count|].
    apply sum_restarting_cases.
Qed.

(** * Further properties of the agent *)

Lemma Agent_init_lookup aid (cls : TaskClass) :
  tasks (Agent_init aid) !! KName (name cls) = Some None.
Proof.
  unfold Agent_init. cbn.
  repeat (rewrite lookup_insert; case_decide; [done|]).
  destruct cls; congruence.
Qed.

Lemma Agent_init_names_only aid : names_only (Agent_init aid).
Proof.
  intros nm [v Hv]. unfold Agent_init in Hv. cbn in Hv.
  repeat (rewrite lookup_insert in Hv; case_decide; [simplify_eq; eauto|]).
  by rewrite lookup_empty in Hv.
Qed.

(** X1. On a new agent no query raises: every task class needs
    scheduling, none is running, none is finished, and a class can be
    offered exactly when the offer fits it. *)
Theorem new_agent_queries (aid : string) (cls : TaskClass) (offer : Offer) :
  let self := Agent_init aid in
  task_needs_scheduling cls self = (Ok true, self) ∧
  task_running cls self = (Ok false, self) ∧
  task_finished cls self = (Ok false, self) ∧
  task_can_be_offered cls offer self = (Ok (can_accept_offer cls offer), self).
Proof.
  cbn zeta.
  unfold task_can_be_offered, task_needs_scheduling, task_running,
    task_finished, bind, getitem.
  rewrite Agent_init_lookup. done.
Qed.

(** *** What [handle_offer] stores *)

Lemma tracks_ret_None : tracks_returned (ret None).
Proof. by intros self t self' [=]. Qed.

Lemma tracks_new_task cls kwargs :
  tracks_returned (bind (new_task cls kwargs) (λ t, ret (Some t))).
Proof.
  intros self t self' [= <- <-]. cbn. split_and!; [done..|]. by exists kwargs.
Qed.

Lemma tracks_bind_reads {A} (m : M A) (k : A → M (option Task)) :
  reads m → (∀ x, tracks_returned (k x)) → tracks_returned (bind m k).
Proof.
  intros Hm Hk self t self'. unfold bind.
  pose proof (reads_unchanged m self Hm) as Hself.
  destruct (m self) as [[x|e] s]; cbn in Hself; subst s; [apply Hk|done].
Qed.

Lemma tracks_clear (k : M (option Task)) :
  tracks_returned k → tracks_returned (bind (set_restarting false) (λ _, k)).
Proof. intros Hk self t self' H. by apply Hk in H. Qed.

Lemma handle_offer_tracks offer : tracks_returned (handle_offer offer).
Proof.
  unfold handle_offer.
  repeat first
    [ apply tracks_ret_None
    | apply tracks_new_task
    | apply tracks_clear
    | apply tracks_bind_reads; [solve_reads | intros []]
    | match goal with
      | |- tracks_returned (if ?b then _ else _) => destruct b
      | |- tracks_returned (bind (if ?b then _ else _) _) =>
          destruct b; cbn [negb]
      end ].
Qed.

(** X2. The task returned by [handle_offer] is the one the agent tracks
    afterwards: it is a task just built for this agent, it is stored
    under the name of its class, every other entry of the dictionary is
    as before, and the agent keeps its id. *)
Theorem handle_offer_returned_is_tracked
    (self self' : Agent) (offer : Offer) (t : Task) :
  handle_offer offer self = (Ok (Some t), self') →
  tasks self' !! KName (name (task_class t)) = Some (Some t) ∧
  (∀ k, k ≠ KName (name (task_class t)) → tasks self' !! k = tasks self !! k) ∧
  agent_id self' = agent_id self ∧
  ∃ kwargs, task_data t = task_init (task_class t) (agent_id self) kwargs.
Proof.
  intros H. apply handle_offer_tracks in H as (-> & ? & ?).
  split_and!; [by rewrite lookup_insert_eq| |done..].
  intros k Hk. by rewrite lookup_insert_ne.
Qed.

(** *** What [handle_offer] launches *)

Lemma returns_class_new_task cls kwargs :
  returns_class cls (bind (new_task cls kwargs) (λ t, ret (Some t))).
Proof. by intros self t [= <-]. Qed.

Lemma returns_class_bind {A} cls (m : M A) (k : A → M (option Task)) :
  (∀ x, returns_class cls (k x)) → returns_class cls (bind m k).
Proof.
  intros Hk self t. unfold bind.
  destruct (m self) as [[x|e] s]; [apply Hk|done].
Qed.

Lemma offered_ret_None offer : offered_only offer (ret None).
Proof. by intros aid tk rs t [=]. Qed.

Lemma offered_bind_reads {A} offer (m : M A) (k : A → M (option Task)) :
  reads m → (∀ x, offered_only offer (k x)) → offered_only offer (bind m k).
Proof.
  intros Hm Hk aid tk rs t. unfold bind. rewrite (Hm aid tk rs).
  destruct (m (Build_Agent aid tk false)).1 as [x|e]; [apply Hk|done].
Qed.

Lemma offered_bind_ret {A} offer (x : A) (k : A → M (option Task)) :
  offered_only offer (k x) → offered_only offer (bind (ret x) k).
Proof. done. Qed.

Lemma offered_clear offer (k : M (option Task)) :
  offered_only offer k →
  offered_only offer (bind (set_restarting false) (λ _, k)).
Proof. intros Hk aid tk rs t H. by apply (Hk aid tk false). Qed.

Lemma offered_rung offer cls (launch rest : M (option Task)) :
  returns_class cls launch → offered_only offer rest →
  offered_only offer
    (bind (task_can_be_offered cls offer)
          (λ b, if b then launch else rest)).
Proof.
  intros Hl Hr aid tk rs t. unfold bind.
  rewrite (reads_task_can_be_offered cls offer aid tk rs).
  destruct (task_can_be_offered cls offer (Build_Agent aid tk false)).1
    as [[|]|e] eqn:E; [|apply Hr|done].
  intros H. apply Hl in H as ->. done.
Qed.

Lemma handle_offer_offered offer : offered_only offer (handle_offer offer).
Proof.
  unfold handle_offer.
  repeat first
    [ apply offered_ret_None
    | apply offered_rung;
      [ first [ apply returns_class_new_task
              | do 2 (apply returns_class_bind; intros ?);
                apply returns_class_new_task ] | ]
    | apply offered_clear
    | apply offered_bind_reads; [solve_reads | intros []]
    | match goal with
      | |- offered_only _ (if ?b then _ else _) => destruct b
      | |- offered_only _ (bind (if negb ?b then _ else _) _) =>
          destruct b; cbn [negb]
      | |- offered_only _ (bind (if true then ?m else _) _) =>
          change (if true then m else ret false) with m
      | |- offered_only _ (bind (if false then _ else ret ?x) _) =>
          apply offered_bind_ret
      end ].
Qed.

Lemma task_can_be_offered_true (self : Agent) (cls : TaskClass) (offer : Offer) :
  (task_can_be_offered cls offer self).1 = Ok true →
  (task_needs_scheduling cls self).1 = Ok true ∧
  can_accept_offer cls offer = true.
Proof.
  unfold task_can_be_offered, bind.
  destruct (task_needs_scheduling cls self) as [[b|e] s]; cbn; [|done].
  by intros [= [-> Hacc]%andb_true_iff].
Qed.

Lemma handle_offer_offered_any (self : Agent) (offer : Offer) (t : Task) :
  (handle_offer offer self).1 = Ok (Some t) →
  (task_can_be_offered (task_class t) offer self).1 = Ok true.
Proof.
  destruct self as [aid tk rs]. intros H.
  apply handle_offer_offered in H.
  by rewrite (reads_task_can_be_offered _ offer aid tk rs).
Qed.

(** X3. [handle_offer] returns a task only of a class that needed
    scheduling on the agent and that the offer fits. *)
Theorem handle_offer_launches_offered
    (self : Agent) (offer : Offer) (t : Task) :
  (handle_offer offer self).1 = Ok (Some t) →
  (task_needs_scheduling (task_class t) self).1 = Ok true ∧
  can_accept_offer (task_class t) offer = true.
Proof. intros H. by apply task_can_be_offered_true, handle_offer_offered_any. Qed.

(** *** [handle_update], case by case *)

Lemma next_class_named_inv nm (self self' : Agent) r :
  next_class_named nm self = (r, self') →
  self' = self ∧
  match r with
  | Ok cls => name cls = nm
  | Raise e => e = StopIteration ∧ ∀ cls, name cls ≠ nm
  end.
Proof.
  unfold next_class_named.
  destruct (filter _ _) as [|cls l] eqn:E; intros [= <- <-]; (split; [done|]).
  - split; [done|]. intros cls Hcls.
    assert (cls ∈ filter (λ c, name c = nm) TASK_CLASSES) as Hin
      by (apply list_elem_of_filter; split; [done|apply TASK_CLASSES_complete]).
    rewrite E in Hin. by apply elem_of_nil in Hin.
  - assert (cls ∈ filter (λ c, name c = nm) TASK_CLASSES) as Hin
      by (rewrite E; left).
    by apply list_elem_of_filter in Hin as [? _].
Qed.

(** The dictionary after the update of the task [t] found or created
    under [nm], from the dictionary [tk] that holds it. *)
Lemma handle_update_tracked (upd : TaskStatus) (self : Agent) (t : Task) :
  let nm := name_from_task_id (task_id upd) in
  let t' := {| task_class := task_class t;
               task_data := update (task_class t) (task_data t) upd |} in
  let tk := <[KName nm := Some t']> (tasks self) in
  tasks self !! KName nm = Some (Some t) →
  handle_update upd self
  = (Ok tt,
     {| agent_id := agent_id self;
        tasks := if bool_decide (nm = name TaskRestartComponents)
                    && negb (running (task_class t') (task_data t'))
                 then <[KClass TaskInstallDockerClusterStore := None]>
                        (<[KName (name TaskInstallNetmodules) := None]> tk)
                 else tk;
        restarting := restarting self |}).
Proof.
  intros nm t' tk Hlook. unfold handle_update. fold nm.
  unfold bind at 1. unfold getitem at 1. rewrite Hlook.
  unfold bind, ret, setitem. cbn. fold t'. by case_match.
Qed.

Lemma handle_update_created (upd : TaskStatus) (self : Agent) (cls : TaskClass) :
  let nm := name_from_task_id (task_id upd) in
  let t := {| task_class := cls;
              task_data := task_init cls (agent_id self) [] |} in
  let t' := {| task_class := cls;
               task_data := update cls (task_data t) upd |} in
  let tk := <[KName nm := Some t']> (<[KName (name cls) := Some t]> (tasks self)) in
  tasks self !! KName nm = Some None →
  next_class_named nm self = (Ok cls, self) →
  handle_update upd self
  = (Ok tt,
     {| agent_id := agent_id self;
        tasks := if bool_decide (nm = name TaskRestartComponents)
                    && negb (running (task_class t') (task_data t'))
                 then <[KClass TaskInstallDockerClusterStore := None]>
                        (<[KName (name TaskInstallNetmodules) := None]> tk)
                 else tk;
        restarting := restarting self |}).
Proof.
  intros nm t t' tk Hlook Hnext. unfold handle_update. fold nm.
  unfold bind at 1. unfold getitem at 1. rewrite Hlook.
  unfold bind at 1. unfold bind at 1. rewrite Hnext.
  unfold bind, ret, setitem, new_task, get_agent_id. cbn. fold t t'.
  by case_match.
Qed.

Lemma handle_update_cases (upd : TaskStatus) (self : Agent) :
  let nm := name_from_task_id (task_id upd) in
  (tasks self !! KName nm = None ∧
   handle_update upd self = (Raise KeyError, self)) ∨
  (tasks self !! KName nm = Some None ∧ (∀ cls, name cls ≠ nm) ∧
   handle_update upd self = (Raise StopIteration, self)) ∨
  (∃ (t' : Task) (tk : gmap key (option Task)),
     (tk = tasks self ∨
      ∃ t, tk = <[KName nm := Some t]> (tasks self) ∧
           tasks self !! KName nm = Some None) ∧
     is_Some (tasks self !! KName nm) ∧
     handle_update upd self
     = (Ok tt,
        {| agent_id := agent_id self;
           tasks := if bool_decide (nm = name TaskRestartComponents)
                       && negb (running (task_class t') (task_data t'))
                    then <[KClass TaskInstallDockerClusterStore := None]>
                           (<[KName (name TaskInstallNetmodules) := None]>
                              (<[KName nm := Some t']> tk))
                    else <[KName nm := Some t']> tk;
           restarting := restarting self |})).
Proof.
  intros nm. destruct (tasks self !! KName nm) as [[t|]|] eqn:Hlook.
  - right; right. eexists _, (tasks self). split_and!; [by left|done|].
    by apply handle_update_tracked.
  - destruct (next_class_named nm self) as [[cls|e] s] eqn:Hnext;
      apply next_class_named_inv in Hnext as Hinv; destruct Hinv as [-> Hinv].
    + right; right.
      pose proof (handle_update_created upd self cls Hlook Hnext) as Heq.
      cbn zeta in Heq. fold nm in Heq. rewrite Hinv in Heq.
      eexists _, _. split_and!; [right; eauto|by eexists|exact Heq].
    + right; left. destruct Hinv as [-> Hno]. split_and!; [done..|].
      unfold handle_update. fold nm.
      unfold bind at 1. unfold getitem at 1. rewrite Hlook.
      unfold bind at 1. unfold bind at 1. by rewrite Hnext.
  - left. split; [done|]. unfold handle_update. fold nm.
    unfold bind at 1. unfold getitem at 1. by rewrite Hlook.
Qed.

(** X4. A status update for a task the agent tracks does not raise and
    is applied to that task: afterwards the entry holds the task, of the
    same class, with its data updated (the names of the netmodules and
    restart tasks being distinct). *)
Theorem handle_update_applies (upd : TaskStatus) (self : Agent) (t : Task) :
  name TaskInstallNetmodules ≠ name TaskRestartComponents →
  tasks self !! KName (name_from_task_id (task_id upd)) = Some (Some t) →
  (handle_update upd self).1 = Ok tt ∧
  tasks (handle_update upd self).2 !! KName (name_from_task_id (task_id upd))
  = Some (Some {| task_class := task_class t;
                  task_data := update (task_class t) (task_data t) upd |}).
Proof.
  intros Hne Hlook. rewrite (handle_update_tracked upd self t Hlook). cbn.
  split; [done|]. case_match; [|by rewrite lookup_insert_eq].
  rewrite lookup_insert_ne by done. rewrite lookup_insert_ne.
  - by rewrite lookup_insert_eq.
  - match goal with H : _ && _ = true |- _ =>
      apply andb_true_iff in H as [H%bool_decide_eq_true _] end.
    congruence.
Qed.


(** X6. When a status update of the restart task has been handled and
    the restart task is then not running, the netmodules entry is
    [None], so the netmodules install needs scheduling; the entry set
    for the cluster-store install is the one under the class object. *)
Theorem handle_update_restart_done (upd : TaskStatus) (self self' : Agent) :
  name_from_task_id (task_id upd) = name TaskRestartComponents →
  handle_update upd self = (Ok tt, self') →
  task_running TaskRestartComponents self' = (Ok false, self') →
  tasks self' !! KName (name TaskInstallNetmodules) = Some None ∧
  tasks self' !! KClass TaskInstallDockerClusterStore = Some None ∧
  task_needs_scheduling TaskInstallNetmodules self' = (Ok true, self').
Proof.
  intros Hnm Hupd Hrun.
  destruct (handle_update_cases upd self)
    as [[_ Heq]|[(_ & _ & Heq)|(t' & tk & Htk & _ & Heq)]];
    rewrite Heq in Hupd; [done..|]. clear Heq.
  rewrite Hnm in Hupd. rewrite bool_decide_eq_true_2 in Hupd by done.
  cbn [andb] in Hupd.
  destruct (running (task_class t') (task_data t')) eqn:Ht'; cbn in Hupd;
    injection Hupd as <-.
  - exfalso. revert Hrun. unfold task_running, bind, getitem. cbn.
    rewrite lookup_insert_eq. cbn. by rewrite Ht'.
  - assert (tasks
              {| agent_id := agent_id self;
                 tasks := <[KClass TaskInstallDockerClusterStore := None]>
                            (<[KName (name TaskInstallNetmodules) := None]>
                               (<[KName (name TaskRestartComponents) := Some t']> tk));
                 restarting := restarting self |}
            !! KName (name TaskInstallNetmodules) = Some None) as Hnet.
    { cbn. rewrite lookup_insert_ne by done. by rewrite lookup_insert_eq. }
    split_and!; [done|by cbn; rewrite lookup_insert_eq|].
    unfold task_needs_scheduling, bind, getitem. by rewrite Hnet.
Qed.

(** *** Entries of the agents reached from a new agent *)

Lemma handle_offer_tasks (self : Agent) (offer : Offer) :
  agent_id (handle_offer offer self).2 = agent_id self ∧
  (tasks (handle_offer offer self).2 = tasks self ∨
   ∃ t, tasks (handle_offer offer self).2
        = <[KName (name (task_class t)) := Some t]> (tasks self)).
Proof.
  destruct self as [aid tk rs].
  destruct (handle_offer_shape offer aid tk)
    as (r & tk' & cleared & Hrun & Hframe).
  pose proof (handle_offer_tracks offer (Build_Agent aid tk rs)) as Htr.
  rewrite Hrun in *. cbn. split; [done|].
  destruct r as [[t|]|e]; [right|by left..].
  exists t. by destruct (Htr t _ eq_refl) as [? _].
Qed.

Lemma names_present_insert k v (tk : gmap key (option Task)) :
  (∀ cls, is_Some (tk !! KName (name cls))) →
  ∀ cls, is_Some (<[k := v]> tk !! KName (name cls)).
Proof.
  intros H cls. rewrite lookup_insert. case_decide; [by eexists|apply H].
Qed.

Lemma names_only_insert k v (tk : gmap key (option Task)) :
  (∀ nm, k = KName nm → ∃ cls, nm = name cls) →
  (∀ nm, is_Some (tk !! KName nm) → ∃ cls, nm = name cls) →
  ∀ nm, is_Some (<[k := v]> tk !! KName nm) → ∃ cls, nm = name cls.
Proof.
  intros Hk H nm. rewrite lookup_insert.
  case_decide; [intros _; by apply Hk|apply H].
Qed.

Lemma agent_step_names (self : Agent) (c : agent_call) :
  names_present self ∧ names_only self →
  names_present (agent_step self c) ∧ names_only (agent_step self c).
Proof.
  intros [Hp Ho]. destruct c as [offer|upd]; cbn.
  - destruct (handle_offer_tasks self offer) as [_ [Heq|[t Heq]]];
      unfold names_present, names_only; rewrite Heq; [done|].
    split.
    + by apply names_present_insert.
    + apply names_only_insert; [|done]. intros nm [= <-]. eauto.
  - destruct (handle_update_cases upd self)
      as [[_ ->]|[(_ & _ & ->)|(t' & tk & Htk & Hsome & ->)]]; [done..|].
    assert (∃ cls, name_from_task_id (task_id upd) = name cls) as [c0 Hc0]
      by by apply Ho.
    assert ((∀ cls, is_Some (tk !! KName (name cls))) ∧
            (∀ nm, is_Some (tk !! KName nm) → ∃ cls, nm = name cls))
      as [Hp' Ho'].
    { destruct Htk as [->|(t & -> & Hnone)]; [done|]. split.
      - by apply names_present_insert.
      - apply names_only_insert; [|done]. intros nm [= <-]. eauto. }
    unfold names_present, names_only. cbn. split.
    + case_match; repeat (apply names_present_insert); done.
    + case_match;
        repeat (apply names_only_insert;
                [intros nm [=]; subst; eauto|]); done.
Qed.

Lemma agent_run_names (calls : list agent_call) (self : Agent) :
  names_present self ∧ names_only self →
  names_present (agent_run calls self) ∧ names_only (agent_run calls self).
Proof.
  revert self. induction calls as [|c calls IH]; intros self H; [done|].
  cbn. by apply IH, agent_step_names.
Qed.

Lemma reachable_names aid (calls : list agent_call) :
  names_present (agent_run calls (Agent_init aid)) ∧
  names_only (agent_run calls (Agent_init aid)).
Proof.
  apply agent_run_names. split.
  - intros cls. rewrite Agent_init_lookup. by eexists.
  - apply Agent_init_names_only.
Qed.

Lemma names_present_queries (self : Agent) (cls : TaskClass) (offer : Offer) :
  names_present self →
  (∃ b, task_needs_scheduling cls self = (Ok b, self)) ∧
  (∃ b, task_can_be_offered cls offer self = (Ok b, self)) ∧
  (∃ b, task_running cls self = (Ok b, self)) ∧
  (∃ b, task_finished cls self = (Ok b, self)).
Proof.
  intros Hp. destruct (Hp cls) as [v Hv].
  unfold task_can_be_offered, task_needs_scheduling, task_running,
    task_finished, bind, getitem. rewrite Hv.
  destruct v as [t|]; cbn; [destruct (persistent _)|]; cbn; eauto 10.
Qed.

(** X7. On an agent obtained from a new one by any calls of
    [handle_offer] and [handle_update], the queries never raise: every
    task name keeps its entry. *)
Theorem reachable_queries_return
    (aid : string) (calls : list agent_call) (cls : TaskClass) (offer : Offer) :
  let self := agent_run calls (Agent_init aid) in
  (∃ b, task_needs_scheduling cls self = (Ok b, self)) ∧
  (∃ b, task_can_be_offered cls offer self = (Ok b, self)) ∧
  (∃ b, task_running cls self = (Ok b, self)) ∧
  (∃ b, task_finished cls self = (Ok b, self)).
Proof. apply names_present_queries, reachable_names. Qed.

(** X8. On such an agent a status update that names a task class does
    not raise, and a status update that names no task class raises
    [KeyError] and changes nothing. *)
Theorem reachable_update_by_name
    (aid : string) (calls : list agent_call) (upd : TaskStatus) :
  let self := agent_run calls (Agent_init aid) in
  let nm := name_from_task_id (task_id upd) in
  ((∃ cls, nm = name cls) → (handle_update upd self).1 = Ok tt) ∧
  ((∀ cls, nm ≠ name cls) → handle_update upd self = (Raise KeyError, self)).
Proof.
  cbn zeta. destruct (reachable_names aid calls) as [Hp Ho].
  pose proof (handle_update_cases upd (agent_run calls (Agent_init aid)))
    as Hcases. cbn zeta in Hcases.
  remember (agent_run calls (Agent_init aid)) as self eqn:Hself. clear Hself.
  remember (name_from_task_id (task_id upd)) as nm eqn:Hnm. clear Hnm.
  destruct Hcases
    as [[Hlook Heq]|[(Hlook & Hno & Heq)|(t' & tk & _ & Hsome & Heq)]];
    rewrite Heq; cbn.
  - split; [|done]. intros [cls ->]. destruct (Hp cls) as [v Hv]. congruence.
  - split; intros H.
    + destruct H as [cls ->]. by destruct (Hno cls).
    + destruct (Ho nm) as [cls ->]; [by rewrite Hlook|]. by destruct (H cls).
  - split; [done|]. intros H.
    destruct (Ho nm Hsome) as [cls ->]. by destruct (H cls).
Qed.

(** *** Outcomes of [handle_offer] on the agents reached *)

Lemma handle_offer_outcomes (self : Agent) (offer : Offer) :
  names_present self → no_netmodules_class_key self →
  (∃ t self', handle_offer offer self = (Ok (Some t), self') ∧
              task_class t ∈ FIRST_RUNGS) ∨
  handle_offer offer self = (Ok None, self) ∨
  handle_offer offer self = (Raise KeyError, self).
Proof.
  intros Hp Hno.
  destruct (names_present_queries self TaskRunEtcdProxy offer Hp)
    as (_ & [b1 H1] & [b3 H3] & _).
  destruct (names_present_queries self TaskInstallNetmodules offer Hp)
    as (_ & [b2 H2] & _ & [b5 H5]).
  destruct (names_present_queries self TaskInstallDockerClusterStore offer Hp)
    as (_ & [b4 H4] & _ & [b6 H6]).
  remember (handle_offer offer self) as res eqn:Hres.
  unfold handle_offer in Hres. unfold FIRST_RUNGS.
  unfold bind at 1 in Hres. rewrite H1 in Hres.
  destruct b1;
    [subst res; left; eexists _, _; split; [reflexivity|set_solver]|].
  unfold bind at 1 in Hres. rewrite H2 in Hres.
  destruct b2;
    [subst res; left; eexists _, _; split; [reflexivity|set_solver]|].
  unfold bind at 1 in Hres. rewrite H3 in Hres.
  destruct b3; [subst res; right; left; done|].
  unfold bind at 1 in Hres. rewrite H4 in Hres.
  destruct b4;
    [subst res; left; eexists _, _; split; [reflexivity|set_solver]|].
  unfold bind at 1 in Hres. rewrite H5 in Hres.
  destruct b5; [|subst res; right; left; done].
  cbn [negb] in Hres.
  unfold bind at 1 in Hres. rewrite H6 in Hres.
  destruct b6; [|subst res; right; left; done].
  cbn [negb] in Hres.
  unfold bind at 1 in Hres. unfold bind at 1 in Hres.
  unfold item_restart_required at 1 in Hres.
  unfold bind at 1 in Hres. unfold getitem at 1 in Hres.
  rewrite Hno in Hres. subst res. right; right; done.
Qed.

(** X9. On an agent obtained from a new one by any calls,
    [handle_offer] has three outcomes: it returns a task of one of the
    first three rungs (etcd proxy, netmodules install, cluster-store
    install), or it returns [None] and leaves the agent as it is, or it
    raises [KeyError] and leaves the agent as it is.  The restart
    task, the Calico node and the libnetwork driver are never
    returned. *)
Theorem reachable_offer_outcomes
    (aid : string) (calls : list agent_call) (offer : Offer) :
  let self := agent_run calls (Agent_init aid) in
  (∃ t self', handle_offer offer self = (Ok (Some t), self') ∧
              task_class t ∈ FIRST_RUNGS) ∨
  handle_offer offer self = (Ok None, self) ∨
  handle_offer offer self = (Raise KeyError, self).
Proof.
  apply handle_offer_outcomes.
  - apply reachable_names.
  - apply agent_run_no_class_key, Agent_init_no_class_key.
Qed.

(** X10. On such an agent, once both install tasks are finished and
    the etcd proxy is not running, every offer on which none of the
    first three rungs launches makes [handle_offer] raise [KeyError]:
    the restart decision reads the dictionary under the class object. *)
Theorem reachable_install_done_raises
    (aid : string) (calls : list agent_call) (offer : Offer) :
  let self := agent_run calls (Agent_init aid) in
  (task_can_be_offered TaskRunEtcdProxy offer self).1 = Ok false →
  (task_can_be_offered TaskInstallNetmodules offer self).1 = Ok false →
  (task_running TaskRunEtcdProxy self).1 = Ok false →
  (task_can_be_offered TaskInstallDockerClusterStore offer self).1 = Ok false →
  (task_finished TaskInstallNetmodules self).1 = Ok true →
  (task_finished TaskInstallDockerClusterStore self).1 = Ok true →
  handle_offer offer self = (Raise KeyError, self).
Proof.
  cbn zeta.
  pose proof (agent_run_no_class_key calls _ (Agent_init_no_class_key aid))
    as Hno.
  remember (agent_run calls (Agent_init aid)) as self eqn:Hself. clear Hself.
  intros H1 H2 H3 H4 H5 H6.
  assert (∀ A (m : M A) x, reads m → (m self).1 = Ok x → m self = (Ok x, self))
    as Hfull.
  { intros A m x Hm Hx. pose proof (reads_unchanged m self Hm) as Hs.
    destruct (m self) as [r s]. cbn in *. by subst. }
  apply Hfull in H1, H2, H3, H4, H5, H6; try solve_reads.
  unfold handle_offer.
  unfold bind at 1. rewrite H1.
  unfold bind at 1. rewrite H2.
  unfold bind at 1. rewrite H3.
  unfold bind at 1. rewrite H4.
  unfold bind at 1. rewrite H5. cbn [negb].
  unfold bind at 1. rewrite H6. cbn [negb].
  unfold bind at 1. unfold bind at 1.
  unfold item_restart_required at 1. unfold bind at 1. unfold getitem at 1.
  by rewrite Hno.
Qed.

(** X11. The first two rungs: whenever the etcd proxy can be offered
    it is the task returned, whatever else the agent tracks; when it
    cannot, the netmodules install is returned as soon as it can be
    offered, whether the etcd proxy runs or not. *)
Theorem handle_offer_first_two_rungs (self : Agent) (offer : Offer) :
  ((task_can_be_offered TaskRunEtcdProxy offer self).1 = Ok true →
   (handle_offer offer self).1
   = Ok (Some {| task_class := TaskRunEtcdProxy;
                 task_data := task_init TaskRunEtcdProxy (agent_id self) [] |})) ∧
  ((task_can_be_offered TaskRunEtcdProxy offer self).1 = Ok false →
   (task_can_be_offered TaskInstallNetmodules offer self).1 = Ok true →
   (handle_offer offer self).1
   = Ok (Some {| task_class := TaskInstallNetmodules;
                 task_data := task_init TaskInstallNetmodules
                                (agent_id self) [] |})).
Proof.
  assert (∀ A (m : M A) x, reads m → (m self).1 = Ok x → m self = (Ok x, self))
    as Hfull.
  { intros A m x Hm Hx. pose proof (reads_unchanged m self Hm) as Hs.
    destruct (m self) as [r s]. cbn in *. by subst. }
  split.
  - intros H1. apply Hfull in H1; [|solve_reads].
    unfold handle_offer. unfold bind at 1. by rewrite H1.
  - intros H1 H2. apply Hfull in H1, H2; try solve_reads.
    unfold handle_offer. unfold bind at 1. rewrite H1.
    unfold bind at 1. by rewrite H2.
Qed.

(** X12. The [restarting] flag has no part in the decision: two agents
    with the same id and the same dictionary get the same answer from
    [handle_offer] and the same dictionary afterwards. *)
Theorem handle_offer_ignores_restarting
    (aid : string) (tk : gmap key (option Task)) (rs1 rs2 : bool)
    (offer : Offer) :
  (handle_offer offer (Build_Agent aid tk rs1)).1
  = (handle_offer offer (Build_Agent aid tk rs2)).1 ∧
  tasks (handle_offer offer (Build_Agent aid tk rs1)).2
  = tasks (handle_offer offer (Build_Agent aid tk rs2)).2.
Proof.
  destruct (handle_offer_shape offer aid tk)
    as (r & tk' & cleared & Hrun & _).
  by rewrite !Hrun.
Qed.

(** X19. While the tracked etcd proxy is a persistent task that is
    running, every offer on which the netmodules install cannot be
    offered is declined, whatever the other tasks: the ladder stops at
    its third rung and the agent is left as it is. *)
Theorem etcd_running_declines (self : Agent) (offer : Offer) (t : Task) :
  tasks self !! KName (name TaskRunEtcdProxy) = Some (Some t) →
  persistent (task_class t) = true →
  running (task_class t) (task_data t) = true →
  (task_can_be_offered TaskInstallNetmodules offer self).1 = Ok false →
  handle_offer offer self = (Ok None, self).
Proof.
  intros Hlook Hp Hrun Hnet.
  apply handle_offer_stalls_when_etcd_runs.
  - unfold task_can_be_offered, task_needs_scheduling, bind, getitem.
    by rewrite Hlook, Hp, Hrun.
  - pose proof (reads_unchanged (task_can_be_offered TaskInstallNetmodules offer)
                  self (reads_task_can_be_offered _ _)) as Hs.
    destruct (task_can_be_offered TaskInstallNetmodules offer self) as [r s].
    cbn in *. by subst.
  - unfold task_running, bind, getitem. by rewrite Hlook, Hrun.
Qed.

(** X20. No status update for another task changes the entry of the
    cluster-store install, the update that ends a restart included:
    that one clears the netmodules entry and writes under the class
    object (the names of the two install tasks being distinct). *)
Theorem handle_update_keeps_cluster_store (upd : TaskStatus) (self : Agent) :
  name TaskInstallNetmodules ≠ name TaskInstallDockerClusterStore →
  name_from_task_id (task_id upd) ≠ name TaskInstallDockerClusterStore →
  tasks (handle_update upd self).2 !! KName (name TaskInstallDockerClusterStore)
  = tasks self !! KName (name TaskInstallDockerClusterStore).
Proof.
  intros Hne Hnm.
  destruct (handle_update_cases upd self)
    as [[_ ->]|[(_ & _ & ->)|(t' & tk & Htk & _ & ->)]]; [done..|]. cbn.
  assert (tk !! KName (name TaskInstallDockerClusterStore)
          = tasks self !! KName (name TaskInstallDockerClusterStore)) as <-.
  { destruct Htk as [->|(t & -> & _)]; [done|].
    rewrite lookup_insert_ne; [done|congruence]. }
  case_match; rewrite ?lookup_insert_ne; congruence.
Qed.

(** * Further properties of the scheduler *)

Lemma all_agents_store (I : string → Agent → Prop) aid (agent : Agent)
    (self : CalicoScheduler) :
  I aid agent → all_agents I self → all_agents I (store_agent aid agent self).
Proof.
  intros Hi Hall aid' agent'. cbn. rewrite lookup_insert.
  case_decide; [by intros [= <-]; subst|apply Hall].
Qed.

Lemma all_agents_get_agent (I : string → Agent → Prop) aid
    (self : CalicoScheduler) :
  (∀ aid, I aid (Agent_init aid)) → all_agents I self →
  I aid (get_agent aid self).1 ∧ all_agents I (get_agent aid self).2.
Proof.
  intros Hinit Hall. unfold get_agent.
  destruct (agents self !! aid) as [agent|] eqn:E; cbn.
  - split; [by apply Hall|done].
  - split; [done|]. by apply (all_agents_store I aid (Agent_init aid)).
Qed.

Section AgentInvariant.
Variable I : string → Agent → Prop.
Hypothesis I_init : ∀ aid, I aid (Agent_init aid).
Hypothesis I_offer : ∀ aid agent offer,
  I aid agent → I aid (handle_offer offer agent).2.
Hypothesis I_update : ∀ aid agent upd,
  I aid agent → I aid (handle_update upd agent).2.

Lemma all_agents_resourceOffers offers (self : CalicoScheduler) :
  all_agents I self → all_agents I (resourceOffers offers self).2.
Proof.
  revert self. induction offers as [|offer offers IH]; intros self Hall; [done|].
  cbn [resourceOffers].
  destruct (all_agents_get_agent I (offer_slave_id offer) self I_init Hall)
    as [Hi Hall'].
  destruct (get_agent _ self) as [agent self1]. cbn in Hi, Hall'.
  pose proof (I_offer _ agent offer Hi) as Hi'.
  destruct (handle_offer offer agent) as [r agent']. cbn in Hi'.
  pose proof (all_agents_store I _ agent' self1 Hi' Hall') as Hstored.
  specialize (IH _ Hstored).
  destruct r as [[task|]|e]; [| |done];
    by destruct (resourceOffers offers _) as [[calls e] self2].
Qed.

Lemma all_agents_statusUpdate upd (self : CalicoScheduler) :
  all_agents I self → all_agents I (statusUpdate upd self).2.
Proof.
  intros Hall. unfold statusUpdate.
  destruct (all_agents_get_agent I (update_slave_id upd) self I_init Hall)
    as [Hi Hall'].
  destruct (get_agent _ self) as [agent self1]. cbn in Hi, Hall'.
  pose proof (I_update _ agent upd Hi) as Hi'.
  destruct (handle_update upd agent) as [r agent']. cbn in *.
  by apply all_agents_store.
Qed.

Lemma all_agents_run events (self : CalicoScheduler) :
  all_agents I self → all_agents I (scheduler_run events self).
Proof.
  revert self. induction events as [|e events IH]; intros self Hall; [done|].
  cbn. apply IH. destruct e as [offers|upd]; cbn.
  - by apply all_agents_resourceOffers.
  - by apply all_agents_statusUpdate.
Qed.

End AgentInvariant.

Lemma all_agents_init (I : string → Agent → Prop) cap :
  all_agents I (CalicoScheduler_init cap).
Proof. intros aid agent. cbn. by rewrite lookup_empty. Qed.

(** X13. [get_agent] registers the agent it returns under the id asked
    for and touches no other agent; a known agent is returned as it is
    and an unknown one is a new agent; asking again gives the same
    agent and changes nothing. *)
Theorem get_agent_registers (aid : string) (self : CalicoScheduler) :
  agents (get_agent aid self).2 !! aid = Some (get_agent aid self).1 ∧
  (∀ aid', aid' ≠ aid →
     agents (get_agent aid self).2 !! aid' = agents self !! aid') ∧
  (get_agent aid self).1 = default (Agent_init aid) (agents self !! aid) ∧
  get_agent aid (get_agent aid self).2 = get_agent aid self.
Proof.
  unfold get_agent. destruct (agents self !! aid) as [agent|] eqn:E; cbn.
  - rewrite E. done.
  - rewrite lookup_insert_eq. split_and!; [done| |done..].
    intros aid' Hne. by rewrite lookup_insert_ne.
Qed.

Lemma resourceOffers_cap offers (self : CalicoScheduler) :
  max_concurrent_restart (resourceOffers offers self).2
  = max_concurrent_restart self.
Proof.
  revert self. induction offers as [|offer offers IH]; intros self; [done|].
  cbn [resourceOffers].
  assert (max_concurrent_restart (get_agent (offer_slave_id offer) self).2
          = max_concurrent_restart self) as Hget
    by (unfold get_agent; by destruct (agents self !! _)).
  destruct (get_agent _ self) as [agent self1]. cbn in Hget.
  destruct (handle_offer offer agent) as [r agent'].
  specialize (IH (store_agent (offer_slave_id offer) agent' self1)).
  destruct r as [[task|]|e]; [| |done];
    destruct (resourceOffers offers _) as [[calls e] self2];
    cbn in *; congruence.
Qed.

Lemma scheduler_step_cap (self : CalicoScheduler) (e : event) :
  max_concurrent_restart (scheduler_step self e) = max_concurrent_restart self.
Proof.
  destruct e as [offers|upd]; cbn; [apply resourceOffers_cap|].
  unfold statusUpdate.
  assert (max_concurrent_restart (get_agent (update_slave_id upd) self).2
          = max_concurrent_restart self) as Hget
    by (unfold get_agent; by destruct (agents self !! _)).
  destruct (get_agent _ self) as [agent self1].
  by destruct (handle_update upd agent) as [r agent'].
Qed.

Lemma scheduler_run_cap events (self : CalicoScheduler) :
  max_concurrent_restart (scheduler_run events self)
  = max_concurrent_restart self.
Proof.
  unfold scheduler_run. revert self.
  induction events as [|e events IH]; intros self; [done|].
  cbn. by rewrite IH, scheduler_step_cap.
Qed.

(** X14. Whatever events the scheduler has handled, every agent it
    holds is stored under its own id, and the configured cap is the one
    given at creation. *)
Theorem scheduler_agents_keyed (cap : Z) (events : list event) :
  let self := scheduler_run events (CalicoScheduler_init cap) in
  all_agents (λ aid agent, agent_id agent = aid) self ∧
  max_concurrent_restart self = cap.
Proof.
  split; [|by rewrite scheduler_run_cap].
  apply all_agents_run; [done| | |apply all_agents_init].
  - intros aid agent offer <-. apply handle_offer_tasks.
  - intros aid agent upd <-. apply handle_update_frame.
Qed.







(** X16. [resourceOffers] answers the offers one by one in their
    order, each with one driver call: the offers answered are a prefix
    of the batch, the whole batch when no call of [handle_offer]
    raised, and a strict prefix when one did. *)
Theorem resourceOffers_answers_in_order
    (offers : list Offer) (self : CalicoScheduler) :
  let calls := (resourceOffers offers self).1.1 in
  let e := (resourceOffers offers self).1.2 in
  call_offer <$> calls `prefix_of` offers ∧
  (e = None → call_offer <$> calls = offers) ∧
  (e ≠ None → (length calls < length offers)%nat).
Proof.
  cbn zeta. revert self.
  induction offers as [|offer offers IH]; intros self.
  { cbn. split_and!; done. }
  cbn [resourceOffers].
  destruct (get_agent _ self) as [agent self1].
  destruct (handle_offer offer agent) as [r agent'].
  specialize (IH (store_agent (offer_slave_id offer) agent' self1)).
  destruct r as [[task|]|e].
  - destruct (resourceOffers offers _) as [[calls e] self2].
    cbn in *. destruct IH as (Hpre & Hall & Hlt). split_and!.
    + by apply prefix_cons.
    + intros He. by rewrite Hall.
    + intros He. apply Hlt in He. lia.
  - destruct (resourceOffers offers _) as [[calls e] self2].
    cbn in *. destruct IH as (Hpre & Hall & Hlt). split_and!.
    + by apply prefix_cons.
    + intros He. by rewrite Hall.
    + intros He. apply Hlt in He. lia.
  - cbn. split_and!; [apply prefix_nil|done|lia].
Qed.

Lemma resourceOffers_accepts offers (self : CalicoScheduler) offer t :
  all_agents (λ _ agent, no_netmodules_class_key agent) self →
  acceptOffers offer t ∈ (resourceOffers offers self).1.1 →
  task_class t ∈ FIRST_RUNGS ∧ can_accept_offer (task_class t) offer = true.
Proof.
  revert self. induction offers as [|o offers IH]; intros self Hall.
  { cbn. by intros ?%elem_of_nil. }
  cbn [resourceOffers].
  destruct (all_agents_get_agent _ (offer_slave_id o) self
              Agent_init_no_class_key Hall) as [Hno Hall'].
  destruct (get_agent _ self) as [agent self1]. cbn in Hno, Hall'.
  destruct (handle_offer_first_rungs o agent Hno) as [Hno' Hfirst].
  pose proof (handle_offer_offered_any agent o) as Hoff.
  destruct (handle_offer o agent) as [r agent']. cbn in Hno', Hfirst, Hoff.
  pose proof (all_agents_store _ (offer_slave_id o) agent' self1 Hno' Hall')
    as Hstored.
  specialize (IH _ Hstored).
  destruct r as [[task|]|e]; [| |by intros ?%elem_of_nil];
    destruct (resourceOffers offers _) as [[calls e] self2]; cbn in *;
    intros [Heq|Hin]%elem_of_cons; [|by apply IH| |by apply IH].
  - injection Heq as -> ->. split; [by apply Hfirst|].
    by apply (task_can_be_offered_true agent), Hoff.
  - done.
Qed.

(** X17. Whatever events the scheduler has handled, a task it launches
    against an offer fits that offer and is the etcd proxy, the
    netmodules install or the cluster-store install: it never launches
    the restart task, the Calico node or the libnetwork driver. *)
Theorem scheduler_launches_first_rungs
    (cap : Z) (events : list event) (offers : list Offer)
    (offer : Offer) (t : Task) :
  acceptOffers offer t
    ∈ (resourceOffers offers
         (scheduler_run events (CalicoScheduler_init cap))).1.1 →
  task_class t ∈ FIRST_RUNGS ∧ can_accept_offer (task_class t) offer = true.
Proof.
  apply resourceOffers_accepts.
  apply all_agents_run; [apply Agent_init_no_class_key| | |apply all_agents_init].
  - intros _ agent o Hno. by apply handle_offer_first_rungs.
  - intros _ agent upd Hno. by apply handle_update_frame.
Qed.

(** X18. Whatever events the scheduler has handled, [can_restart]
    raises [AttributeError] for every agent it holds: none of them is
    restarting, and for such an agent the function never answers. *)
Theorem reached_scheduler_cannot_restart
    (cap : Z) (events : list event) (aid : string) (agent : Agent) :
  let self := scheduler_run events (CalicoScheduler_init cap) in
  agents self !! aid = Some agent →
  can_restart self agent = Raise AttributeError.
Proof.
  intros self Hagent. apply can_restart_raises.
  eapply (none_restarting_run events), Hagent. apply none_restarting_init.
Qed.

End FrameworkFacts.


(** * The framework on concrete agents *)

Section ConcreteRuns.
#[local] Existing Instance spec_tasks.

Lemma spec_name_inj (c1 c2 : TaskClass) : spec_name c1 = spec_name c2 → c1 = c2.
Proof. destruct c1, c2; intros H; first [reflexivity | discriminate H]. Qed.

(** C1. The stall is not kept: on the agent whose etcd proxy has been
    launched and is not running, an offer that fits the cluster-store
    install task only (so neither of the first two rungs launches)
    makes [handle_offer] return the cluster-store install task, where
    the specification asks for [None]. *)
Theorem etcd_down_cluster_store_launched :
  tasks agent_etcd_launched !! KName (name TaskRunEtcdProxy)
  = Some (Some (task_in TaskRunEtcdProxy NotStarted false)) ∧
  (task_running TaskRunEtcdProxy agent_etcd_launched).1 = Ok false ∧
  (handle_offer (offer_fitting [TaskInstallDockerClusterStore])
     agent_etcd_launched).1
  = Ok (Some (task_in TaskInstallDockerClusterStore NotStarted false)).
Proof. split_and!; vm_compute; reflexivity. Qed.

(** C2. Scenario B is not met: with the etcd proxy running, both
    install tasks finished and no restart required, an offer that fits
    every task makes [handle_offer] return [None] and leave the agent
    as it is, where the specification asks for the Calico node task. *)
Theorem installed_agent_offer_declined :
  (task_running TaskRunEtcdProxy agent_installed).1 = Ok true ∧
  (task_finished TaskInstallNetmodules agent_installed).1 = Ok true ∧
  (task_finished TaskInstallDockerClusterStore agent_installed).1 = Ok true ∧
  (item_restart_required (KName (name TaskInstallNetmodules))
     agent_installed).1 = Ok false ∧
  (item_restart_required (KName (name TaskInstallDockerClusterStore))
     agent_installed).1 = Ok false ∧
  handle_offer (offer_fitting TASK_CLASSES) agent_installed
  = (Ok None, agent_installed).
Proof. split_and!; vm_compute; reflexivity. Qed.

(** C3. The reset is half done: the update that takes the running
    restart task to finished succeeds and clears the netmodules entry,
    but the cluster-store entry still holds its finished instance (a
    new entry, keyed by the class object, is the one set to [None]), so
    [task_needs_scheduling] is true for netmodules and false for the
    cluster-store install task. *)
Theorem restart_done_cluster_store_kept :
  let upd := status_of TaskRestartComponents Finished false in
  let self' := (handle_update upd agent_restart_running).2 in
  (task_running TaskRestartComponents agent_restart_running).1 = Ok true ∧
  (handle_update upd agent_restart_running).1 = Ok tt ∧
  (task_running TaskRestartComponents self').1 = Ok false ∧
  tasks self' !! KName (name TaskInstallNetmodules) = Some None ∧
  tasks self' !! KName (name TaskInstallDockerClusterStore)
  = Some (Some (task_in TaskInstallDockerClusterStore Finished false)) ∧
  tasks self' !! KClass TaskInstallDockerClusterStore = Some None ∧
  (task_needs_scheduling TaskInstallNetmodules self').1 = Ok true ∧
  (task_needs_scheduling TaskInstallDockerClusterStore self').1 = Ok false.
Proof. split_and!; vm_compute; reflexivity. Qed.

(** C4. Scenario C is not met: with netmodules finished and asking for
    a restart, the cluster-store install finished and no restart task
    tracked, an offer that fits the restart task makes [handle_offer]
    raise [KeyError] when the etcd proxy is not tracked and return
    [None] when it is running; no restart task is returned and the
    [restarting] flag stays down. *)
Theorem restart_needed_no_restart_task :
  (item_restart_required (KName (name TaskInstallNetmodules))
     agent_restart_needed).1 = Ok true ∧
  tasks agent_restart_needed !! KName (name TaskRestartComponents) = Some None ∧
  can_accept_offer TaskRestartComponents (offer_fitting [TaskRestartComponents])
  = true ∧
  handle_offer (offer_fitting [TaskRestartComponents]) agent_restart_needed
  = (Raise KeyError, agent_restart_needed) ∧
  restarting agent_restart_needed = false ∧
  handle_offer (offer_fitting TASK_CLASSES) agent_restart_needed_etcd
  = (Ok None, agent_restart_needed_etcd) ∧
  restarting agent_restart_needed_etcd = false.
Proof. split_and!; vm_compute; reflexivity. Qed.

(** C5. [can_restart] does not answer for an agent that is not
    restarting: on a new scheduler with cap 1 and on the scheduler that
    has seen one offer, no agent is restarting, the specification
    allows the restart, and the code raises [AttributeError]. *)
Theorem can_restart_raises_under_cap :
  let s0 := CalicoScheduler_init 1 in
  let s1 := scheduler_run [EvOffers [offer_fitting TASK_CLASSES]] s0 in
  restarting fresh_agent = false ∧
  count_restarting s0 = 0 ∧ count_restarting s1 = 0 ∧
  can_restart_spec s0 fresh_agent = true ∧
  can_restart_spec s1 fresh_agent = true ∧
  can_restart s0 fresh_agent = Raise AttributeError ∧
  can_restart s1 fresh_agent = Raise AttributeError.
Proof. split_and!; vm_compute; reflexivity. Qed.

(** C6. The ordering is not kept: on a new agent, after an offer that
    fits no task (declined), an offer that fits the cluster-store
    install task only makes the first task returned the cluster-store
    install task, neither the etcd proxy nor the netmodules install. *)
Theorem fresh_agent_first_task_cluster_store :
  offer_results [offer_fitting []; offer_fitting [TaskInstallDockerClusterStore]]
    fresh_agent
  = [Ok None; Ok (Some (task_in TaskInstallDockerClusterStore NotStarted false))] ∧
  first_task
    (offer_results
       [offer_fitting []; offer_fitting [TaskInstallDockerClusterStore]]
       fresh_agent)
  = Some (task_in TaskInstallDockerClusterStore NotStarted false).
Proof. split_and!; vm_compute; reflexivity. Qed.

(** Witness of C7: a new agent tracks no etcd proxy, and the installed
    agent tracks a finished netmodules install task. *)
Lemma task_needs_scheduling_spec_witness :
  task_needs_scheduling TaskRunEtcdProxy fresh_agent = (Ok true, fresh_agent) ∧
  ∃ b, task_needs_scheduling TaskInstallNetmodules agent_installed
       = (Ok b, agent_installed) ∧
       (b = true ↔ failed TaskInstallNetmodules
                     {| run_state := Finished; restart_flag := false |} = true).
Proof.
  split.
  - apply (proj1 (task_needs_scheduling_spec fresh_agent TaskRunEtcdProxy)).
    vm_compute. reflexivity.
  - apply (proj2 (task_needs_scheduling_spec agent_installed TaskInstallNetmodules)
             (task_in TaskInstallNetmodules Finished false)).
    vm_compute. reflexivity.
Defined.

(** Witness of C8: a finished netmodules update reaches a new agent. *)
Lemma handle_update_untracked_witness :
  let upd := status_of TaskInstallNetmodules Finished false in
  ∃ self', handle_update upd fresh_agent = (Ok tt, self') ∧
           tasks self' !! KName (name TaskInstallNetmodules)
           = Some (Some (task_in TaskInstallNetmodules Finished false)).
Proof.
  apply (handle_update_untracked fresh_agent
           (status_of TaskInstallNetmodules Finished false)
           TaskInstallNetmodules spec_name_inj).
  - reflexivity.
  - vm_compute. reflexivity.
Defined.

(** Witness of C9: the installed agent declines an offer fitting all. *)
Lemma handle_offer_none_unchanged_witness :
  tasks agent_installed = tasks agent_installed ∧
  agent_id agent_installed = agent_id agent_installed ∧
  (restarting agent_installed = restarting agent_installed ∨
   restarting agent_installed = false) ∧
  handle_offer (offer_fitting TASK_CLASSES) agent_installed
  = (Ok None, agent_installed).
Proof.
  apply (handle_offer_none_unchanged agent_installed agent_installed
           (offer_fitting TASK_CLASSES)).
  vm_compute. reflexivity.
Defined.

(** ** Witnesses of the further properties *)

(** Witness of X2: a new agent is offered everything and launches the
    etcd proxy. *)
Lemma handle_offer_returned_is_tracked_witness :
  tasks agent_etcd_launched !! KName (name TaskRunEtcdProxy)
  = Some (Some (task_in TaskRunEtcdProxy NotStarted false)).
Proof.
  refine (proj1 (handle_offer_returned_is_tracked fresh_agent
                   agent_etcd_launched (offer_fitting TASK_CLASSES)
                   (task_in TaskRunEtcdProxy NotStarted false) _)).
  vm_compute. reflexivity.
Defined.

(** Witness of X3: the same call. *)
Lemma handle_offer_launches_offered_witness :
  (task_needs_scheduling TaskRunEtcdProxy fresh_agent).1 = Ok true ∧
  can_accept_offer TaskRunEtcdProxy (offer_fitting TASK_CLASSES) = true.
Proof.
  refine (handle_offer_launches_offered fresh_agent (offer_fitting TASK_CLASSES)
            (task_in TaskRunEtcdProxy NotStarted false) _).
  vm_compute. reflexivity.
Defined.

(** Witness of X4: the launched etcd proxy is reported running. *)
Lemma handle_update_applies_witness :
  let upd := status_of TaskRunEtcdProxy Running false in
  (handle_update upd agent_etcd_launched).1 = Ok tt ∧
  tasks (handle_update upd agent_etcd_launched).2
    !! KName (name_from_task_id (task_id upd))
  = Some (Some (task_in TaskRunEtcdProxy Running false)).
Proof.
  refine (handle_update_applies (status_of TaskRunEtcdProxy Running false)
            agent_etcd_launched (task_in TaskRunEtcdProxy NotStarted false)
            _ _).
  - intros H. discriminate H.
  - vm_compute. reflexivity.
Defined.


(** Witness of X6: the running restart task is reported finished. *)
Lemma handle_update_restart_done_witness :
  let self' := (handle_update (status_of TaskRestartComponents Finished false)
                  agent_restart_running).2 in
  tasks self' !! KName (name TaskInstallNetmodules) = Some None ∧
  tasks self' !! KClass TaskInstallDockerClusterStore = Some None ∧
  task_needs_scheduling TaskInstallNetmodules self' = (Ok true, self').
Proof.
  refine (handle_update_restart_done
            (status_of TaskRestartComponents Finished false)
            agent_restart_running _ _ _ _).
  - reflexivity.
  - vm_compute. reflexivity.
  - vm_compute. reflexivity.
Defined.

(** Witness of X8: an etcd proxy update and an update of unknown name
    reach a new agent. *)
Lemma reachable_update_by_name_witness :
  (handle_update (status_of TaskRunEtcdProxy Running false) fresh_agent).1
  = Ok tt ∧
  handle_update {| status_task_id := ("agent-1", "no-such-task");
                   status_state := Running; status_restart := false |}
    fresh_agent
  = (Raise KeyError, fresh_agent).
Proof.
  split.
  - refine (proj1 (reachable_update_by_name "agent-1" []
                     (status_of TaskRunEtcdProxy Running false)) _).
    by exists TaskRunEtcdProxy.
  - refine (proj2 (reachable_update_by_name "agent-1" []
                     {| status_task_id := ("agent-1", "no-such-task");
                        status_state := Running;
                        status_restart := false |}) _).
    intros cls H. destruct cls; discriminate H.
Defined.

(** Witness of X10: both installs are reported finished to a new agent,
    which is then offered what only the restart task needs. *)
Lemma reachable_install_done_raises_witness :
  handle_offer (offer_fitting [TaskRestartComponents]) agent_restart_needed
  = (Raise KeyError, agent_restart_needed).
Proof.
  refine (reachable_install_done_raises "agent-1"
            [call_update TaskInstallNetmodules Finished true;
             call_update TaskInstallDockerClusterStore Finished false]
            (offer_fitting [TaskRestartComponents]) _ _ _ _ _ _);
    vm_compute; reflexivity.
Defined.

(** Witness of X11: a new agent offered everything, and offered what
    only the netmodules install needs. *)
Lemma handle_offer_first_two_rungs_witness :
  (handle_offer (offer_fitting TASK_CLASSES) fresh_agent).1
  = Ok (Some (task_in TaskRunEtcdProxy NotStarted false)) ∧
  (handle_offer (offer_fitting [TaskInstallNetmodules]) fresh_agent).1
  = Ok (Some (task_in TaskInstallNetmodules NotStarted false)).
Proof.
  split.
  - refine (proj1 (handle_offer_first_two_rungs fresh_agent
                     (offer_fitting TASK_CLASSES)) _).
    vm_compute. reflexivity.
  - refine (proj2 (handle_offer_first_two_rungs fresh_agent
                     (offer_fitting [TaskInstallNetmodules])) _ _);
      vm_compute; reflexivity.
Defined.


(** Witness of X16: a batch answered in full, and a batch cut by the
    [KeyError] of its first offer. *)
Lemma resourceOffers_answers_in_order_witness :
  call_offer <$>
    (resourceOffers [offer_fitting TASK_CLASSES; offer_fitting []]
       (CalicoScheduler_init 1)).1.1
  = [offer_fitting TASK_CLASSES; offer_fitting []] ∧
  (length
     (resourceOffers [offer_fitting [TaskRestartComponents]; offer_fitting []]
        (scheduler_run
           [EvUpdate (status_of TaskInstallNetmodules Finished true);
            EvUpdate (status_of TaskInstallDockerClusterStore Finished false)]
           (CalicoScheduler_init 1))).1.1
   < length [offer_fitting [TaskRestartComponents]; offer_fitting []])%nat.
Proof.
  split.
  - refine (proj1 (proj2 (resourceOffers_answers_in_order
                            [offer_fitting TASK_CLASSES; offer_fitting []]
                            (CalicoScheduler_init 1))) _).
    vm_compute. reflexivity.
  - refine (proj2 (proj2 (resourceOffers_answers_in_order
                            [offer_fitting [TaskRestartComponents];
                             offer_fitting []]
                            (scheduler_run
                               [EvUpdate (status_of TaskInstallNetmodules
                                            Finished true);
                                EvUpdate (status_of TaskInstallDockerClusterStore
                                            Finished false)]
                               (CalicoScheduler_init 1)))) _).
    vm_compute. intros H. discriminate H.
Defined.

(** Witness of X17: a new scheduler launches the etcd proxy. *)
Lemma scheduler_launches_first_rungs_witness :
  task_class (task_in TaskRunEtcdProxy NotStarted false) ∈ FIRST_RUNGS ∧
  can_accept_offer
    (task_class (task_in TaskRunEtcdProxy NotStarted false))
    (offer_fitting TASK_CLASSES) = true.
Proof.
  refine (scheduler_launches_first_rungs 1 [] [offer_fitting TASK_CLASSES]
            (offer_fitting TASK_CLASSES)
            (task_in TaskRunEtcdProxy NotStarted false) _).
  apply list_elem_of_here.
Defined.

(** Witness of X18: the agent registered by a first offer. *)
Lemma reached_scheduler_cannot_restart_witness :
  can_restart
    (scheduler_run [EvOffers [offer_fitting TASK_CLASSES]]
       (CalicoScheduler_init 1))
    agent_etcd_launched
  = Raise AttributeError.
Proof.
  refine (reached_scheduler_cannot_restart 1
            [EvOffers [offer_fitting TASK_CLASSES]] "agent-1"
            agent_etcd_launched _).
  vm_compute. reflexivity.
Defined.

(** Witness of X19: the installed agent, etcd proxy running. *)
Lemma etcd_running_declines_witness :
  handle_offer (offer_fitting TASK_CLASSES) agent_installed
  = (Ok None, agent_installed).
Proof.
  refine (etcd_running_declines agent_installed (offer_fitting TASK_CLASSES)
            (task_in TaskRunEtcdProxy Running false) _ _ _ _);
    vm_compute; reflexivity.
Defined.

(** Witness of X20: the running restart task is reported finished. *)
Lemma handle_update_keeps_cluster_store_witness :
  tasks (handle_update (status_of TaskRestartComponents Finished false)
           agent_restart_running).2
    !! KName (name TaskInstallDockerClusterStore)
  = tasks agent_restart_running !! KName (name TaskInstallDockerClusterStore).
Proof.
  refine (handle_update_keeps_cluster_store
            (status_of TaskRestartComponents Finished false)
            agent_restart_running _ _);
    intros H; discriminate H.
Defined.

End ConcreteRuns.
